(** * Land-value gradient: the geometry pipeline of [lib/geo]

    A shallow embedding of [normalizePolygon], [findClosestRoadAndConnection],
    [generateSubdivisionGrid] and [calculateLandValues].  JavaScript numbers
    are IEEE 754 binary64 values ([spec_float] at precision 53), exceptions
    are an error monad, and the geometry library the code calls (turf, d3,
    [Math.exp]) is a record of functions the development is parametric in. *)

From Stdlib Require Import ZArith List Bool String DecimalString Lia.
From Stdlib Require Import Floats.SpecFloat.
Import ListNotations.

Local Open Scope string_scope.
Local Open Scope Z_scope.
Local Open Scope list_scope.

(** ** JavaScript numbers *)

Definition number : Type := spec_float.

Definition prec : Z := 53.
Definition emax : Z := 1024.

(** An integer literal. *)
Definition num_of_Z (z : Z) : number := binary_normalize prec emax z 0 false.

Definition zero : number := num_of_Z 0.
Definition one : number := num_of_Z 1.
Definition Infinity : number := S754_infinity false.
Definition neg_Infinity : number := S754_infinity true.

(** [a < b], [a > b], [a <= b] and the arithmetic operators. *)
Definition ltb (a b : number) : bool := SFltb a b.
Definition gtb (a b : number) : bool := ltb b a.
Definition leb (a b : number) : bool := SFleb a b.
Definition add (a b : number) : number := SFadd prec emax a b.
Definition sub (a b : number) : number := SFsub prec emax a b.
Definition mul (a b : number) : number := SFmul prec emax a b.
Definition div (a b : number) : number := SFdiv prec emax a b.
Definition neg (a : number) : number := SFopp a.
Definition sqrt (a : number) : number := SFsqrt prec emax a.

Definition isNaN (a : number) : bool :=
  match a with S754_nan => true | _ => false end.

(** [Number.isFinite]. *)
Definition isFinite (a : number) : bool :=
  match a with S754_zero _ | S754_finite _ _ _ => true | _ => false end.

(** ToBoolean on a number: [0], [-0] and [NaN] are falsy. *)
Definition truthy (a : number) : bool :=
  match a with S754_zero _ | S754_nan => false | _ => true end.

(** [a || b] where [a] may be [undefined] or [null]. *)
Definition js_or (a : option number) (b : number) : number :=
  match a with
  | Some v => if truthy v then v else b
  | None => b
  end.

(** One step of [Math.max]'s scan: a [NaN] argument makes the result [NaN],
    [+0] replaces [-0], and a strictly greater argument replaces the
    highest value so far. *)
Definition max_step (highest n : number) : number :=
  match highest, n with
  | S754_nan, _ => S754_nan
  | _, S754_nan => S754_nan
  | S754_zero true, S754_zero false => S754_zero false
  | _, _ => if gtb n highest then n else highest
  end.

(** [Math.max(...xs)]; [-Infinity] on no argument. *)
Definition Math_max (xs : list number) : number :=
  fold_left max_step xs neg_Infinity.

(** ** Exceptions *)

Inductive result (A : Type) : Type :=
| Ok (a : A)
| Throw (e : string).

Arguments Ok {A} a.
Arguments Throw {A} e.

Definition bind {A B : Type} (c : result A) (k : A -> result B) : result B :=
  match c with
  | Ok a => k a
  | Throw e => Throw e
  end.

Notation "x <- c ;; k" := (bind c (fun x => k))
  (at level 61, c at next level, right associativity).

(** [xs.forEach] with a callback that updates the enclosing variables [s]
    and may throw; [forEachI] also hands the callback its index. *)
Fixpoint forEachI {A St : Type} (f : St -> A -> nat -> result St)
    (xs : list A) (index : nat) (s : St) : result St :=
  match xs with
  | [] => Ok s
  | x :: rest => s' <- f s x index ;; forEachI f rest (S index) s'
  end.

Definition forEach {A St : Type} (f : St -> A -> result St) (xs : list A) (s : St)
    : result St :=
  forEachI (fun s x _ => f s x) xs 0%nat s.

(** [xs.map] with a callback that may throw. *)
Fixpoint mapM {A B : Type} (f : A -> result B) (xs : list A) : result (list B) :=
  match xs with
  | [] => Ok []
  | x :: rest => y <- f x ;; ys <- mapM f rest ;; Ok (y :: ys)
  end.

(** ** GeoJSON values *)

Definition Position : Type := list number.

Inductive Geometry : Type :=
| Point (coordinates : Position)
| LineString (coordinates : list Position)
| Polygon (coordinates : list (list Position))
| MultiPolygon (coordinates : list (list (list Position))).

Inductive JValue : Type :=
| JNumber (n : number)
| JString (s : string).

Record Feature : Type := mkFeature {
  geometry : option Geometry;
  properties : list (string * JValue)
}.

(** A point feature as [turfExplode] and [turfCentroid] hand it out. *)
Record PointFeature : Type := mkPoint { pt_coordinates : Position }.

(** The point [turfNearestPointOnLine] returns; of its properties the code
    reads [dist] only. *)
Record NearestProps : Type := mkProps { dist : option number }.

Record NearestPoint : Type := mkNearest {
  np_coordinates : Position;
  np_properties : option NearestProps
}.

Definition BBox : Type := list number.

Inductive Units : Type := meters | kilometers.

(** ** The geometry backend

    Everything [lib/geo] imports.  A call may throw.  [polygon] is the
    helper that wraps coordinates into a Polygon feature; what it rejects
    is [polygonRejects].  [lineString] receives [coordinates[0]], which is
    [undefined] ([None]) when there is no ring.  The [units] option of a
    call is its last argument. *)

Record Backend : Type := mkBackend {
  turfArea : Feature -> result number;
  turfBbox : Feature -> result BBox;
  lineString : option (list Position) -> result Feature;
  polygonRejects : list (list Position) -> option string;
  turfExplode : Feature -> result (list PointFeature);
  turfNearestPointOnLine : Feature -> PointFeature -> Units -> result (option NearestPoint);
  turfSquareGrid : BBox -> number -> Units -> result (list Feature);
  turfBooleanIntersects : Feature -> Feature -> result bool;
  turfIntersect : list Feature -> result (option Feature);
  turfCentroid : Feature -> result PointFeature;
  turfPointToLineDistance : PointFeature -> Feature -> Units -> result number;
  colorScale : number -> string;
  Math_exp : number -> number
}.

Definition featureCollection (features : list Feature) : list Feature := features.

Section Geo.

Context (T : Backend).

Definition polygon (coordinates : list (list Position)) : result Feature :=
  match polygonRejects T coordinates with
  | Some e => Throw e
  | None => Ok (mkFeature (Some (Polygon coordinates)) [])
  end.

(** *** normalizePolygon *)

(** [turfArea(polygon(polyCoords))]: the area of one part. *)
Definition partArea (polyCoords : list (list Position)) : result number :=
  polyFeature <- polygon polyCoords ;;
  turfArea T polyFeature.

(** The body of [coords.forEach] over the running [maxArea] and
    [maxPolyCoords]. *)
Definition normalizeStep (st : number * option (list (list Position)))
    (polyCoords : list (list Position))
    : result (number * option (list (list Position))) :=
  a <- partArea polyCoords ;;
  if gtb a (fst st) then Ok (a, Some polyCoords) else Ok st.

Definition normalizePolygon (feature : option Feature) : result (option Feature) :=
  match feature with
  | None => Ok None
  | Some f =>
      match geometry f with
      | None => Ok None
      | Some (Polygon _) => Ok (Some f)
      | Some (MultiPolygon coords) =>
          st <- forEach normalizeStep coords (num_of_Z (-1), None) ;;
          match snd st with
          | Some maxPolyCoords => p <- polygon maxPolyCoords ;; Ok (Some p)
          | None => Ok None
          end
      | Some _ => Ok None
      end
  end.

(** *** findClosestRoadAndConnection *)

Record ClosestRoadResult : Type := mkClosest {
  roadIndex : Z;
  distanceMeters : number;
  connection : list Position
}.

(** Step 1: the boundary as line strings, outer rings only.  Reading
    [geometry.type] of a feature without geometry is a TypeError. *)
Definition boundaryLinesOf (polygonFeature : Feature) : result (list Feature) :=
  match geometry polygonFeature with
  | None => Throw "TypeError: cannot read properties of null (reading 'type')"
  | Some (Polygon coordinates) =>
      l <- lineString T (nth_error coordinates 0) ;; Ok [l]
  | Some (MultiPolygon coordinates) =>
      forEach (fun lines poly =>
                 l <- lineString T (nth_error poly 0) ;; Ok (lines ++ [l]))
              coordinates []
  | Some _ => Ok []
  end.

(** The distance a nearest point carries, when it carries one. *)
Definition distOf (nearest : option NearestPoint) : option (number * NearestPoint) :=
  match nearest with
  | Some np =>
      match np_properties np with
      | Some props =>
          match dist props with
          | Some d => Some (d, np)
          | None => None
          end
      | None => None
      end
  | None => None
  end.

(** A. one boundary vertex against the road. *)
Definition sampleA (road : Feature) (st : number * list Position) (pt : PointFeature)
    : result (number * list Position) :=
  nearestOnRoad <- turfNearestPointOnLine T road pt meters ;;
  match distOf nearestOnRoad with
  | Some (d, np) =>
      if ltb d (fst st) then Ok (d, [pt_coordinates pt; np_coordinates np]) else Ok st
  | None => Ok st
  end.

(** B. one road vertex against the boundary. *)
Definition sampleB (boundary : Feature) (st : number * list Position) (pt : PointFeature)
    : result (number * list Position) :=
  nearestOnBoundary <- turfNearestPointOnLine T boundary pt meters ;;
  match distOf nearestOnBoundary with
  | Some (d, np) =>
      if ltb d (fst st) then Ok (d, [np_coordinates np; pt_coordinates pt]) else Ok st
  | None => Ok st
  end.

(** [currentMinDist] and [currentConnection] of one road after A and B. *)
Definition candidate (boundary road : Feature) : result (number * list Position) :=
  boundaryPoints <- turfExplode T boundary ;;
  st <- forEach (sampleA road) boundaryPoints (Infinity, []) ;;
  roadPoints <- turfExplode T road ;;
  forEach (sampleB boundary) roadPoints st.

(** The body of [roads.forEach] over [globalMinDist], [closestRoadIndex]
    and [bestConnection]. *)
Definition roadStep (boundary : Feature) (st : number * Z * list Position)
    (road : Feature) (index : nat) : result (number * Z * list Position) :=
  c <- candidate boundary road ;;
  if ltb (fst c) (fst (fst st)) then Ok (fst c, Z.of_nat index, snd c) else Ok st.

Definition findClosestRoadAndConnection (polygonFeature : option Feature)
    (roads : option (list Feature)) : result (option ClosestRoadResult) :=
  match polygonFeature, roads with
  | Some pf, Some ((_ :: _) as rs) =>
      boundaryLines <- boundaryLinesOf pf ;;
      match boundaryLines with
      | [] => Ok None
      | boundary :: _ =>
          st <- forEachI (roadStep boundary) rs 0%nat (Infinity, -1, []) ;;
          let '(globalMinDist, closestRoadIndex, bestConnection) := st in
          if negb (closestRoadIndex =? -1)
          then Ok (Some (mkClosest closestRoadIndex globalMinDist bestConnection))
          else Ok None
      end
  | _, _ => Ok None
  end.

(** *** generateSubdivisionGrid *)

(** [coordinates.forEach(coords => clippedCells.push(polygon(coords)))]
    inside the [try]: a part the helper rejects ends the loop, the cells
    pushed before it stay. *)
Fixpoint pushParts (parts : list (list (list Position))) (clippedCells : list Feature)
    : list Feature :=
  match parts with
  | [] => clippedCells
  | coords :: rest =>
      match polygon coords with
      | Ok p => pushParts rest (clippedCells ++ [p])
      | Throw _ => clippedCells
      end
  end.

(** The [try { ... } catch] block for one intersecting tile. *)
Definition clipCell (polygonFeature cell : Feature) (clippedCells : list Feature)
    : list Feature :=
  match turfIntersect T (featureCollection [cell; polygonFeature]) with
  | Ok (Some clipped) =>
      match geometry clipped with
      | Some (Polygon _) => clippedCells ++ [clipped]
      | Some (MultiPolygon coordinates) => pushParts coordinates clippedCells
      | _ => clippedCells
      end
  | Ok None => clippedCells
  | Throw _ => clippedCells
  end.

Definition gridStep (polygonFeature : Feature) (clippedCells : list Feature)
    (cell : Feature) : result (list Feature) :=
  intersects <- turfBooleanIntersects T cell polygonFeature ;;
  if intersects then Ok (clipCell polygonFeature cell clippedCells)
  else Ok clippedCells.

Definition generateSubdivisionGrid (polygonFeature : option Feature)
    (cellSizeMeters : number) : result (list Feature) :=
  match polygonFeature with
  | None => Ok []
  | Some pf =>
      bbox <- turfBbox T pf ;;
      let cellSideKm := div cellSizeMeters (num_of_Z 1000) in
      grid <- turfSquareGrid T bbox cellSideKm kilometers ;;
      forEach (gridStep pf) grid []
  end.

(** *** calculateLandValues *)

Record CellValue : Type := mkCellValue {
  feature : Feature;
  distance : number;
  value : number;
  color : string
}.

Inductive Mode : Type := linear | exponential.

(** The default of the [decayK] parameter, [0.005]. *)
Definition defaultDecayK : number := div (num_of_Z 5) (num_of_Z 1000).

Definition measure (roadFeature cell : Feature) : result CellValue :=
  center <- turfCentroid T cell ;;
  d <- turfPointToLineDistance T center roadFeature meters ;;
  Ok (mkCellValue cell d zero "").

Definition maxDistOf (maxDistanceOverride : option number) (results : list CellValue)
    : number :=
  js_or maxDistanceOverride (Math_max (map distance results ++ [one])).

Definition valueOf (mode : Mode) (decayK maxDist d : number) : number :=
  match mode with
  | linear => Math_max [zero; sub one (div d maxDist)]
  | exponential => Math_exp T (mul (neg decayK) d)
  end.

(** The body of [results.forEach]: sets [value] and [color] of one record. *)
Definition score (mode : Mode) (decayK maxDist : number) (r : CellValue) : CellValue :=
  let val := valueOf mode decayK maxDist (distance r) in
  mkCellValue (feature r) (distance r) val (colorScale T (sub one val)).

Definition calculateLandValues (cells : list Feature) (roadFeature : option Feature)
    (mode : Mode) (decayK : option number) (maxDistanceOverride : option number)
    : result (list CellValue) :=
  match cells, roadFeature with
  | [], _ => Ok []
  | _, None => Ok []
  | _ :: _, Some road =>
      results <- mapM (measure road) cells ;;
      let maxDist := maxDistOf maxDistanceOverride results in
      let k := match decayK with Some k => k | None => defaultDecayK end in
      Ok (map (score mode k maxDist) results)
  end.

End Geo.

(** ** More of [lib/geo] and its callers on the page *)

(** [google.maps.LatLngLiteral]. *)
Record LatLngLiteral : Type := mkLatLng { lat : number; lng : number }.

(** A point of a path as the page computes it from a position,
    [{ lat: c[1], lng: c[0] }]: a field is [undefined] ([None]) when the
    position is too short. *)
Record PathPoint : Type := mkPathPoint {
  pp_lat : option number;
  pp_lng : option number
}.

Definition toPathPoint (c : Position) : PathPoint :=
  mkPathPoint (nth_error c 1) (nth_error c 0).

Definition ofLatLng (p : LatLngLiteral) : PathPoint :=
  mkPathPoint (Some (lat p)) (Some (lng p)).

(** [a !== b] on numbers: [NaN] differs from itself, [0] equals [-0]. *)
Definition strictNe (a b : number) : bool := negb (SFeqb a b).

(** What [updateBoundaryState] leaves in the page's state; [polygonPath]
    is [None] when [setPolygonPath] is not called. *)
Record BoundaryState : Type := mkBoundaryState {
  boundaryGeoJson : Feature;
  areaSqM : number;
  polygonPath : option (list PathPoint)
}.

Section GeoCallers.

Context (T : Backend).

Definition calculateArea (geojson : option Feature) : result number :=
  match geojson with
  | None => Ok zero
  | Some g => turfArea T g
  end.

(** The ring built from a path; positions hold two numbers, so the
    defaults of [nth] are never read. *)
Definition googlePathToGeoJSON (path : list LatLngLiteral) : result Feature :=
  if (List.length path <? 3)%nat
  then Throw "Polygon must have at least 3 points"
  else
    let ring := map (fun p => [lng p; lat p]) path in
    match ring with
    | [] => Throw "TypeError: cannot read properties of undefined (reading '0')"
    | first :: _ =>
        let final := last ring first in
        if strictNe (nth 0 first zero) (nth 0 final zero)
           || strictNe (nth 1 first zero) (nth 1 final zero)
        then polygon T [ring ++ [first]]
        else polygon T [ring]
    end.

(** [updateBoundaryState]: the path shown for a boundary, ring 0 of a
    Polygon.  For a MultiPolygon the inner test never holds and no path
    is set ([None]); [coords.map] on a missing ring is a TypeError, as is
    reading [type] of a missing geometry. *)
Definition polygonPathOf (feature : Feature) : result (option (list PathPoint)) :=
  match geometry feature with
  | None => Throw "TypeError: cannot read properties of null (reading 'type')"
  | Some (Polygon coordinates) =>
      match nth_error coordinates 0 with
      | Some coords => Ok (Some (map toPathPoint coords))
      | None => Throw "TypeError: cannot read properties of undefined (reading 'map')"
      end
  | Some _ => Ok None
  end.

Definition updateBoundaryState (feature : Feature) : result BoundaryState :=
  area <- calculateArea (Some feature) ;;
  path <- polygonPathOf feature ;;
  Ok (mkBoundaryState feature area path).

(** Step 3 of [selectResult], on the feature steps 1 and 2 found; the
    message of a [Throw] is what [setSearchError] receives. *)
Definition selectResult (geojsonFeature : option Feature) : result BoundaryState :=
  match geojsonFeature with
  | None => Throw "No boundary polygon found for this location."
  | Some _ =>
      normalized <- normalizePolygon T geojsonFeature ;;
      match normalized with
      | None => Throw "Could not normalize geometry to Polygon."
      | Some n => updateBoundaryState n
      end
  end.

End GeoCallers.

(** ** The API routes *)

(** A parsed JSON value. *)
#[warnings="-register-all"]
Inductive Json : Type :=
| JNull
| JBool (b : bool)
| JNum (n : number)
| JStr (s : string)
| JArr (items : list Json)
| JObj (fields : list (string * Json)).

(** A [fetch] call, the response it resolves to, and the reply of a
    route: [NextResponse.json(body, { status })], status 200 by default. *)
Record FetchRequest : Type := mkFetch {
  fetch_url : string;
  fetch_method : string;
  fetch_body : option string;
  fetch_headers : list (string * string)
}.

Record FetchResponse : Type := mkFetched {
  res_ok : bool;
  res_statusText : string;
  res_json : result Json
}.

Inductive Payload : Type :=
| ErrorPayload (error : string)
| DataPayload (data : Json).

Record HttpResponse : Type := mkResponse { payload : Payload; status : Z }.

(** The double quote and the line feed, by their codes. *)
Definition dquote : string := String (Ascii.ascii_of_nat 34) EmptyString.
Definition newline : string := String (Ascii.ascii_of_nat 10) EmptyString.

Definition OVERPASS_API_URL : string := "https://overpass-api.de/api/interpreter".
Definition NOMINATIM_BASE_URL : string := "https://nominatim.openstreetmap.org/search".

(** [searchParams.get(name)]: the first value of the name, or [null]. *)
Fixpoint searchGet (searchParams : list (string * string)) (name : string)
    : option string :=
  match searchParams with
  | [] => None
  | (k, v) :: rest => if String.eqb k name then Some v else searchGet rest name
  end.

(** [!v] for a string or [null]. *)
Definition missing (v : option string) : bool :=
  match v with
  | None => true
  | Some s => String.eqb s ""
  end.

(** [body.name] of a parsed value other than [null]: [undefined] ([None])
    unless the value is an object with that key. *)
Fixpoint field (fields : list (string * Json)) (name : string) : option Json :=
  match fields with
  | [] => None
  | (k, v) :: rest => if String.eqb k name then Some v else field rest name
  end.

Definition prop (body : Json) (name : string) : option Json :=
  match body with
  | JObj fields => field fields name
  | _ => None
  end.

(** ToBoolean of a parsed value or [undefined]. *)
Definition truthyValue (v : option Json) : bool :=
  match v with
  | None => false
  | Some JNull => false
  | Some (JBool b) => b
  | Some (JNum n) => truthy n
  | Some (JStr s) => negb (String.eqb s "")
  | Some (JArr _) => true
  | Some (JObj _) => true
  end.

Definition isArray (v : option Json) : bool :=
  match v with
  | Some (JArr _) => true
  | _ => false
  end.

(** The items of an array; the routes read them, and [length], behind
    [Array.isArray] only. *)
Definition itemsOf (v : option Json) : list Json :=
  match v with
  | Some (JArr items) => items
  | _ => []
  end.

Section Routes.

(** The network, the conversion of [osmtogeojson], [Number::toString] and
    the percent-encoding of [URLSearchParams]. *)
Context (fetch : FetchRequest -> result FetchResponse).
Context (osmtogeojson : Json -> result Json).
Context (numberToString : number -> string).
Context (urlencode : string -> string).

(** ToString of a parsed value, as a template literal applies it;
    [join] turns [null] into the empty string. *)
Fixpoint toStr (v : Json) : string :=
  match v with
  | JNull => "null"
  | JBool true => "true"
  | JBool false => "false"
  | JNum n => numberToString n
  | JStr s => s
  | JArr items =>
      String.concat ","
        (map (fun item => match item with JNull => "" | _ => toStr item end) items)
  | JObj _ => "[object Object]"
  end.

Definition join (items : list Json) (separator : string) : string :=
  String.concat separator
    (map (fun item => match item with JNull => "" | _ => toStr item end) items).

(** What both Overpass routes do inside [try] from [fetch] on. *)
Definition overpassExchange (query : string) : result Json :=
  res <- fetch (mkFetch OVERPASS_API_URL "POST" (Some query) []) ;;
  if negb (res_ok res)
  then Throw ("Overpass API error: " ++ res_statusText res)%string
  else osmData <- res_json res ;; osmtogeojson osmData.

Definition reply (outcome : result Json) : HttpResponse :=
  match outcome with
  | Ok data => mkResponse (DataPayload data) 200
  | Throw message => mkResponse (ErrorPayload message) 500
  end.

(** [GET /api/osm/boundary]: the reply and the requests sent. *)
Definition boundaryGET (searchParams : list (string * string))
    : HttpResponse * list FetchRequest :=
  let osmId := searchGet searchParams "osm_id" in
  let osmType := searchGet searchParams "osm_type" in
  if missing osmId || missing osmType
  then (mkResponse (ErrorPayload "osm_id and osm_type are required") 400, [])
  else
    match osmId, osmType with
    | Some id, Some type =>
        let typeShort :=
          if String.eqb type "relation" then Some "rel"
          else if String.eqb type "way" then Some "way"
          else None in
        match typeShort with
        | None =>
            (mkResponse (ErrorPayload "Invalid osm_type. Must be relation or way.") 400,
             [])
        | Some short =>
            let query := ("[out:json]; " ++ short ++ "(" ++ id ++ "); out geom;")%string in
            (reply (overpassExchange query),
             [mkFetch OVERPASS_API_URL "POST" (Some query) []])
        end
    | _, _ => (mkResponse (ErrorPayload "osm_id and osm_type are required") 400, [])
    end.

(** The Overpass QL of the roads route. *)
Definition roadsQuery (typeRegex overpassBbox : string) : string :=
  (newline ++ "      [out:json][timeout:25];" ++
   newline ++ "      (" ++
   newline ++ "        way[" ++ dquote ++ "highway" ++ dquote ++ "~" ++ dquote ++ "^("
           ++ typeRegex ++ ")$" ++ dquote ++ "](" ++ overpassBbox ++ ");" ++
   newline ++ "      );" ++
   newline ++ "      out geom;" ++
   newline ++ "    ")%string.

(** [POST /api/osm/roads] on the outcome of [request.json()]: the reply
    and the requests sent.  Destructuring [null] is a TypeError. *)
Definition roadsPOST (requestJson : result Json) : HttpResponse * list FetchRequest :=
  match requestJson with
  | Throw message => (mkResponse (ErrorPayload message) 500, [])
  | Ok JNull =>
      (mkResponse
         (ErrorPayload "Cannot destructure property 'bbox' of 'body' as it is null.")
         500, [])
  | Ok body =>
      let bbox := prop body "bbox" in
      let types := prop body "types" in
      if negb (truthyValue bbox) || negb (isArray bbox)
         || negb (List.length (itemsOf bbox) =? 4)%nat
      then (mkResponse
              (ErrorPayload "Valid BBox [minX, minY, maxX, maxY] is required") 400, [])
      else if negb (truthyValue types) || negb (isArray types)
              || (List.length (itemsOf types) =? 0)%nat
      then (mkResponse (ErrorPayload "At least one road type is required") 400, [])
      else
        let typeRegex := join (itemsOf types) "|" in
        let minX := nth 0 (itemsOf bbox) JNull in
        let minY := nth 1 (itemsOf bbox) JNull in
        let maxX := nth 2 (itemsOf bbox) JNull in
        let maxY := nth 3 (itemsOf bbox) JNull in
        let overpassBbox :=
          (toStr minY ++ "," ++ toStr minX ++ "," ++ toStr maxY ++ "," ++ toStr maxX)%string in
        let query := roadsQuery typeRegex overpassBbox in
        (reply (overpassExchange query),
         [mkFetch OVERPASS_API_URL "POST" (Some query) []])
  end.

(** [new URLSearchParams(record).toString()]. *)
Definition searchParamsToString (params : list (string * string)) : string :=
  String.concat "&" (map (fun kv => (urlencode (fst kv) ++ "=" ++ urlencode (snd kv))%string) params).

(** [GET /api/osm/search]: the reply and the requests sent. *)
Definition searchGET (searchParams : list (string * string))
    : HttpResponse * list FetchRequest :=
  let q := searchGet searchParams "q" in
  if missing q
  then (mkResponse
          (ErrorPayload ("Query parameter " ++ dquote ++ "q" ++ dquote ++ " is required")%string)
          400, [])
  else
    match q with
    | Some q =>
        let params :=
          searchParamsToString
            [("q", q); ("format", "json"); ("polygon_geojson", "1");
             ("addressdetails", "1"); ("limit", "5")] in
        let url := (NOMINATIM_BASE_URL ++ "?" ++ params)%string in
        let headers :=
          [("User-Agent", "LandValueGradientApp/1.0");
           ("Referer", "http://localhost:3000")] in
        let request := mkFetch url "GET" None headers in
        (reply (res <- fetch request ;;
                if negb (res_ok res)
                then Throw ("Nominatim API error: " ++ res_statusText res)%string
                else res_json res),
         [request])
    | None =>
        (mkResponse
           (ErrorPayload ("Query parameter " ++ dquote ++ "q" ++ dquote ++ " is required")%string)
           400, [])
    end.

End Routes.

(** ** The page: asking for roads *)

(** The [roadTypes] of the page's state; [Object.entries] lists them in
    this order. *)
Record RoadTypes : Type := mkRoadTypes {
  motorway : bool;
  trunk : bool;
  primary : bool;
  secondary : bool
}.

Definition entries (roadTypes : RoadTypes) : list (string * bool) :=
  [("motorway", motorway roadTypes); ("trunk", trunk roadTypes);
   ("primary", primary roadTypes); ("secondary", secondary roadTypes)].

(** A number after [JSON.stringify] and [request.json()]: [NaN] and the
    infinities come out as [null], [-0] as [0]. *)
Definition jsonNumber (n : number) : Json :=
  match n with
  | S754_nan => JNull
  | S754_infinity _ => JNull
  | S754_zero _ => JNum (S754_zero false)
  | S754_finite _ _ _ => JNum n
  end.

Section RoadsRequest.

Context (T : Backend).

(** [turfBuffer], which [lib/geo] imports like the members of the
    backend; it may return [undefined]. *)
Context (turfBuffer : Feature -> number -> Units -> result (option Feature)).

Definition getBoundingBox (geojson : Feature) : result BBox := turfBbox T geojson.

Definition createBuffer (geojson : Feature) (radiusMeters : number) : option Feature :=
  match turfBuffer geojson radiusMeters meters with
  | Ok (Some buffered) =>
      match geometry buffered with
      | Some _ => Some buffered
      | None => None
      end
  | Ok None => None
  | Throw _ => None
  end.

(** [handleFetchRoads] up to its [fetch], for a boundary that is loaded:
    the body the roads route parses. *)
Definition roadsRequestBody (boundaryGeoJson : Feature) (bufferDistance : number)
    (roadTypes : RoadTypes) : result Json :=
  match createBuffer boundaryGeoJson bufferDistance with
  | None => Throw "Failed to create buffer"
  | Some buffered =>
      bbox <- getBoundingBox buffered ;;
      let selectedTypes := map fst (filter snd (entries roadTypes)) in
      if (List.length selectedTypes =? 0)%nat
      then Throw "Select at least one road type."
      else Ok (JObj [("bbox", JArr (map jsonNumber bbox));
                     ("types", JArr (map JStr selectedTypes))])
  end.

End RoadsRequest.

(** ** Predicates of the statements

    What the loops have established after a prefix of their input, and
    where a value they hold comes from. *)

Section Predicates.

Context (T : Backend).

(** The area of a part computed from its outer ring only, as the spec
    words it: the area primitive on the Polygon of ring 0 alone. *)
Definition outerRingArea (polyCoords : list (list Position)) : result number :=
  partArea T (firstn 1 polyCoords).

(** The helper accepts the part and its area is a number that is at
    least 0. *)
Definition areaOk (p : list (list Position)) : Prop :=
  exists a, partArea T p = Ok a /\ leb zero a = true.

(** What the scan knows after the parts [done]: nothing was seen, or the
    running maximum is the area of part [i], larger than every area before
    it and at least every area after it. *)
Definition scanned (done : list (list (list Position)))
    (st : number * option (list (list Position))) : Prop :=
  (done = [] /\ st = (num_of_Z (-1), None)) \/
  exists i best a,
    nth_error done i = Some best /\ partArea T best = Ok a /\ st = (a, Some best) /\
    forall j p a', nth_error done j = Some p -> partArea T p = Ok a' ->
      leb a' a = true /\ ((j < i)%nat -> ltb a' a = true).

(** The backend measured [pt] against [line]: nearest point [np] at
    distance [d]. *)
Definition sampleAt (line : Feature) (pt : PointFeature) (d : number)
    (np : NearestPoint) : Prop :=
  exists nearest,
    turfNearestPointOnLine T line pt meters = Ok nearest /\
    distOf nearest = Some (d, np).

(** [d] and [conn] come from one sample of the pair: a boundary vertex
    with its nearest point on the road, or the nearest boundary point of a
    road vertex with that vertex; the boundary side stands first. *)
Definition sampleOf (boundary road : Feature) (d : number) (conn : list Position)
    : Prop :=
  (exists pts pt np,
      turfExplode T boundary = Ok pts /\ In pt pts /\ sampleAt road pt d np /\
      conn = [pt_coordinates pt; np_coordinates np]) \/
  (exists pts pt np,
      turfExplode T road = Ok pts /\ In pt pts /\ sampleAt boundary pt d np /\
      conn = [np_coordinates np; pt_coordinates pt]).

(** What a pair [(currentMinDist, currentConnection)] is: the initial one,
    or one sample of the pair, below [Infinity]. *)
Definition fromSample (boundary road : Feature) (st : number * list Position) : Prop :=
  st = (Infinity, []) \/
  (ltb (fst st) Infinity = true /\ sampleOf boundary road (fst st) (snd st)).

(** The scan of [roads.forEach] over candidates that are already computed. *)
Fixpoint selectFrom (cands : list (number * list Position)) (index : nat)
    (st : number * Z * list Position) : number * Z * list Position :=
  match cands with
  | [] => st
  | c :: rest =>
      selectFrom rest (S index)
        (if ltb (fst c) (fst (fst st)) then (fst c, Z.of_nat index, snd c) else st)
  end.

(** What the scan knows after the candidates [done]: none was below
    [Infinity] and the variables are the initial ones, or they hold the
    candidate at index [i], which no candidate is below and which is
    strictly below every candidate before it. *)
Definition chosen (done : list (number * list Position))
    (st : number * Z * list Position) : Prop :=
  (st = (Infinity, -1, []) /\ Forall (fun c => ltb (fst c) Infinity = false) done) \/
  exists i c,
    nth_error done i = Some c /\ st = (fst c, Z.of_nat i, snd c) /\
    ltb (fst c) Infinity = true /\
    forall j c', nth_error done j = Some c' ->
      ltb (fst c') (fst c) = false /\ ((j < i)%nat -> ltb (fst c) (fst c') = true).

(** What [roads.forEach] keeps in its variables: the initial values, or
    index, distance and connection of one sample of one road. *)
Definition picked (boundary : Feature) (roads : list Feature)
    (st : number * Z * list Position) : Prop :=
  st = (Infinity, -1, []) \/
  exists i road,
    nth_error roads i = Some road /\ snd (fst st) = Z.of_nat i /\
    ltb (fst (fst st)) Infinity = true /\
    sampleOf boundary road (fst (fst st)) (snd st).



End Predicates.

(** *** Predicates of the further statements *)

(** The cells one tile contributes, given the answer of its quick check:
    what its [try] block adds to an empty list. *)
Definition tileCells (T : Backend) (pf : Feature) (tile : Feature * bool)
    : list Feature :=
  if snd tile then clipCell T pf (fst tile) [] else [].

(** The query of the boundary route names a non-empty [osm_id] and an
    [osm_type] that is [relation] or [way]. *)
Definition boundaryQueryOk (searchParams : list (string * string)) : Prop :=
  exists id type,
    searchGet searchParams "osm_id" = Some id /\ id <> "" /\
    searchGet searchParams "osm_type" = Some type /\
    (type = "relation" \/ type = "way").


(** ** A planar backend

    An executable instance of [Backend] over plane coordinates, exact for
    boundaries made of axis-parallel rectangles: shoelace area of the outer
    ring less the holes, distances to the nearest vertex of a line, a
    tiling of the bounding box into squares, clipping by bounding boxes.
    Its helpers reject what the library's reject: a line of fewer than two
    positions, a ring of fewer than four, a tile side that is not [>= 0].
    It stands in for the geometry library wherever a statement is run on
    concrete input. *)

Definition xOf (p : Position) : number := nth 0 p zero.
Definition yOf (p : Position) : number := nth 1 p zero.

(** Twice the signed area of a ring. *)
Fixpoint shoelace (ring : list Position) : number :=
  match ring with
  | p :: (q :: _) as rest =>
      add (sub (mul (xOf p) (yOf q)) (mul (xOf q) (yOf p))) (shoelace rest)
  | _ => zero
  end.

Definition ringArea (ring : list Position) : number :=
  div (SFabs (shoelace ring)) (num_of_Z 2).

(** The area of a polygon: its outer ring less its holes. *)
Definition polygonArea (rings : list (list Position)) : number :=
  match rings with
  | [] => zero
  | outer :: holes =>
      fold_left (fun acc hole => sub acc (ringArea hole)) holes (ringArea outer)
  end.

Definition planar_area (f : Feature) : result number :=
  match geometry f with
  | Some (Polygon rings) => Ok (polygonArea rings)
  | Some (MultiPolygon parts) =>
      Ok (fold_left (fun acc part => add acc (polygonArea part)) parts zero)
  | _ => Ok zero
  end.

Definition verticesOf (f : Feature) : list Position :=
  match geometry f with
  | Some (Point c) => [c]
  | Some (LineString cs) => cs
  | Some (Polygon rings) => List.concat rings
  | Some (MultiPolygon parts) => List.concat (List.concat parts)
  | None => []
  end.

Definition num_min (a b : number) : number := if ltb b a then b else a.
Definition num_max (a b : number) : number := if ltb a b then b else a.

(** The bounding box [[west; south; east; north]] of vertices. *)
Definition boxOf (vs : list Position) : BBox :=
  match vs with
  | [] => [Infinity; Infinity; neg_Infinity; neg_Infinity]
  | p :: ps =>
      [fold_left num_min (map xOf ps) (xOf p);
       fold_left num_min (map yOf ps) (yOf p);
       fold_left num_max (map xOf ps) (xOf p);
       fold_left num_max (map yOf ps) (yOf p)]
  end.

Definition planar_bbox (f : Feature) : result BBox := Ok (boxOf (verticesOf f)).

Definition planar_lineString (coordinates : option (list Position)) : result Feature :=
  match coordinates with
  | None => Throw "TypeError: cannot read properties of undefined (reading 'length')"
  | Some cs =>
      if (List.length cs <? 2)%nat
      then Throw "coordinates must be an array of two or more positions"
      else Ok (mkFeature (Some (LineString cs)) [])
  end.

Definition planar_polygonRejects (coordinates : list (list Position)) : option string :=
  if forallb (fun ring => (4 <=? List.length ring)%nat) coordinates
  then None
  else Some "Each LinearRing of a Polygon must have 4 or more Positions.".

Definition planar_explode (f : Feature) : result (list PointFeature) :=
  Ok (map mkPoint (verticesOf f)).

Definition planar_distance (p q : Position) : number :=
  let dx := sub (xOf p) (xOf q) in
  let dy := sub (yOf p) (yOf q) in
  sqrt (add (mul dx dx) (mul dy dy)).

(** The vertex of [vs] nearest to [p], with its distance; the first one on
    a tie, and a point at infinity when there is no vertex. *)
Definition nearestVertex (vs : list Position) (p : Position) : number * Position :=
  fold_left (fun best v =>
               let d := planar_distance p v in
               if ltb d (fst best) then (d, v) else best)
            vs (Infinity, [Infinity; Infinity]).

Definition planar_nearestPointOnLine (line : Feature) (pt : PointFeature) (u : Units)
    : result (option NearestPoint) :=
  let best := nearestVertex (verticesOf line) (pt_coordinates pt) in
  Ok (Some (mkNearest (snd best) (Some (mkProps (Some (fst best)))))).

Definition west (b : BBox) : number := nth 0 b zero.
Definition south (b : BBox) : number := nth 1 b zero.
Definition east (b : BBox) : number := nth 2 b zero.
Definition north (b : BBox) : number := nth 3 b zero.

(** The ring of the rectangle with the given sides, as a Polygon feature. *)
Definition boxFeature (w s e n : number) : Feature :=
  mkFeature (Some (Polygon [[[w; s]; [w; n]; [e; n]; [e; s]; [w; s]]])) [].

(** How often a loop [for (i = 0; i < x; i++)] with [x = Math.floor(..)]
    runs: not at all for [NaN], zero and negative bounds, without end
    ([None]) for [Infinity]. *)
Definition loopCount (x : number) : option nat :=
  match x with
  | S754_finite false m e => Some (Z.to_nat (Z.shiftl (Zpos m) e))
  | S754_infinity false => None
  | _ => Some 0%nat
  end.

Fixpoint gridColumn (x y side : number) (rows : nat) : list Feature :=
  match rows with
  | O => []
  | S r => boxFeature x y (add x side) (add y side) :: gridColumn x (add y side) side r
  end.

Fixpoint gridColumns (x y side : number) (columns rows : nat) : list Feature :=
  match columns with
  | O => []
  | S c => gridColumn x y side rows ++ gridColumns (add x side) y side c rows
  end.

(** Squares of side [cellSide], centred in the box, column by column.  A
    side that is not [>= 0] is rejected; a tile count without bound ends
    in the error of the array that cannot grow. *)
Definition planar_squareGrid (bbox : BBox) (cellSide : number) (u : Units)
    : result (list Feature) :=
  if leb zero cellSide
  then
    let width := sub (east bbox) (west bbox) in
    let height := sub (north bbox) (south bbox) in
    match loopCount (div (SFabs width) cellSide),
          loopCount (div (SFabs height) cellSide) with
    | Some columns, Some rows =>
        let deltaX :=
          div (sub width (mul (num_of_Z (Z.of_nat columns)) cellSide)) (num_of_Z 2) in
        let deltaY :=
          div (sub height (mul (num_of_Z (Z.of_nat rows)) cellSide)) (num_of_Z 2) in
        Ok (gridColumns (add (west bbox) deltaX) (add (south bbox) deltaY)
                        cellSide columns rows)
    | _, _ => Throw "RangeError: Invalid array length"
    end
  else Throw "length must be a positive number".

(** The parts of a polygonal feature, each by the box of its outer ring. *)
Definition partBoxes (f : Feature) : list BBox :=
  match geometry f with
  | Some (Polygon rings) => [boxOf (nth 0 rings [])]
  | Some (MultiPolygon parts) => map (fun part => boxOf (nth 0 part [])) parts
  | _ => []
  end.

Definition boxesTouch (a b : BBox) : bool :=
  leb (num_max (west a) (west b)) (num_min (east a) (east b)) &&
  leb (num_max (south a) (south b)) (num_min (north a) (north b)).

Definition planar_booleanIntersects (a b : Feature) : result bool :=
  Ok (existsb (fun x => existsb (boxesTouch x) (partBoxes b)) (partBoxes a)).

(** The common rectangle of two boxes, when it has an interior. *)
Definition clipBox (a b : BBox) : option (list (list Position)) :=
  let w := num_max (west a) (west b) in
  let s := num_max (south a) (south b) in
  let e := num_min (east a) (east b) in
  let n := num_min (north a) (north b) in
  if ltb w e && ltb s n then Some [[[w; s]; [w; n]; [e; n]; [e; s]; [w; s]]] else None.

Fixpoint clips (tile : BBox) (parts : list BBox) : list (list (list Position)) :=
  match parts with
  | [] => []
  | b :: rest =>
      match clipBox tile b with
      | Some c => c :: clips tile rest
      | None => clips tile rest
      end
  end.

(** The clip of a tile with the boundary: null, a Polygon, or a MultiPolygon
    when the tile meets several parts. *)
Definition planar_intersect (fs : list Feature) : result (option Feature) :=
  match fs with
  | [tile; p] =>
      match clips (boxOf (verticesOf tile)) (partBoxes p) with
      | [] => Ok None
      | [c] => Ok (Some (mkFeature (Some (Polygon c)) []))
      | cs => Ok (Some (mkFeature (Some (MultiPolygon cs)) []))
      end
  | _ => Throw "Must specify at least 2 geometries"
  end.

(** The centre of the bounding box. *)
Definition planar_centroid (f : Feature) : result PointFeature :=
  let b := boxOf (verticesOf f) in
  Ok (mkPoint [div (add (west b) (east b)) (num_of_Z 2);
               div (add (south b) (north b)) (num_of_Z 2)]).

Definition planar_pointToLineDistance (pt : PointFeature) (line : Feature) (u : Units)
    : result number :=
  Ok (fst (nearestVertex (verticesOf line) (pt_coordinates pt))).

(** A two-colour ramp. *)
Definition planar_colorScale (t : number) : string :=
  if ltb t (div one (num_of_Z 2)) then "rgb(165, 0, 38)" else "rgb(49, 54, 149)".

(** A rational stand-in for the exponential: [1 / (1 - x + x*x/2)]. *)
Definition planar_exp (x : number) : number :=
  div one (add (sub one x) (div (mul x x) (num_of_Z 2))).

Definition planar : Backend :=
  mkBackend planar_area planar_bbox planar_lineString planar_polygonRejects
            planar_explode planar_nearestPointOnLine planar_squareGrid
            planar_booleanIntersects planar_intersect planar_centroid
            planar_pointToLineDistance planar_colorScale planar_exp.

(** A buffer for the planar backend: the bounding box, grown by the
    radius. *)
Definition planar_buffer (f : Feature) (radius : number) (u : Units)
    : result (option Feature) :=
  let b := boxOf (verticesOf f) in
  Ok (Some (boxFeature (sub (west b) radius) (sub (south b) radius)
                       (add (east b) radius) (add (north b) radius))).

(** A network that is down, a conversion that passes its input on, and
    the decimal form of the numbers that are integers. *)
Definition offline (request : FetchRequest) : result FetchResponse :=
  Throw "fetch failed".

Definition passOn (osmData : Json) : result Json := Ok osmData.

Definition decimal (z : Z) : string := NilZero.string_of_int (Z.to_int z).

Definition integerToString (n : number) : string :=
  match n with
  | S754_zero _ => "0"
  | S754_finite s m e =>
      let z := if s then Z.neg m else Z.pos m in
      if 0 <=? e then decimal (z * 2 ^ e)
      else if Z.pos m mod 2 ^ (- e) =? 0 then decimal (z / 2 ^ (- e))
      else "?"
  | S754_infinity s => if s then "-Infinity" else "Infinity"
  | S754_nan => "NaN"
  end.

(** *** Concrete inputs *)

Definition pos (x y : Z) : Position := [num_of_Z x; num_of_Z y].

(** The axis-parallel rectangle with corners [(x0, y0)] and [(x1, y1)]. *)
Definition rect (x0 y0 x1 y1 : Z) : list Position :=
  [pos x0 y0; pos x1 y0; pos x1 y1; pos x0 y1; pos x0 y0].

(** The same rectangle as the tiling and the clip write it. *)
Definition boxZ (w s e n : Z) : Feature :=
  boxFeature (num_of_Z w) (num_of_Z s) (num_of_Z e) (num_of_Z n).

Definition polygonFeature (rings : list (list Position)) : Feature :=
  mkFeature (Some (Polygon rings)) [].

Definition lineFeature (cs : list Position) : Feature :=
  mkFeature (Some (LineString cs)) [].

(** The unit square and two roads at distance 1 from it. *)
Definition unitSquare : Feature := polygonFeature [rect 0 0 1 1].
Definition roadEast : Feature := lineFeature [pos 2 0; pos 2 1].
Definition roadNorth : Feature := lineFeature [pos 0 2; pos 1 2].
Definition roadFar : Feature := lineFeature [pos 5 0; pos 5 1].

Definition threeRoads : list Feature := [roadFar; roadEast; roadNorth].

(** The outer ring of the unit square as a line. *)
Definition unitSquareLine : Feature := lineFeature (rect 0 0 1 1).



(** Two cells east of [roadWest], and two more whose centres lie at the
    neighbouring distances 100.00000000000001 and 100.00000000000003. *)
Definition roadWest : Feature := lineFeature [pos 0 (-1); pos 0 0; pos 0 1].
Definition nearCells : list Feature := [boxZ 4 (-1) 6 1; boxZ 9 (-1) 11 1].

Definition d100a : number := S754_finite false 7036874417766401 (-46).
Definition d100b : number := S754_finite false 7036874417766402 (-46).



(** What the valuation returns for them. *)
Definition nearValues : list CellValue :=
  Eval vm_compute in
    match calculateLandValues planar nearCells (Some roadWest) linear None None with
    | Ok rs => rs
    | Throw _ => []
    end.


(** Two squares far enough apart to share a tile of side 4 and to fall
    into different tiles of side 2. *)
Definition twoSquares : Feature :=
  mkFeature (Some (MultiPolygon [[rect 0 0 1 1]; [rect 3 3 4 4]])) [].

(** A part of 24 square units with a hole of 8, and a part of 20. *)
Definition holedParts : list (list (list Position)) :=
  [[rect 0 0 6 4; rect 1 1 5 3]; [rect 10 0 14 5]].

Definition holed : Feature := mkFeature (Some (MultiPolygon holedParts)) [].

(** Three parts of areas 3, 10 and 1. *)
Definition threePartsCoords : list (list (list Position)) :=
  [[rect 0 0 3 1]; [rect 10 0 12 5]; [rect 20 0 21 1]].

Definition threeParts : Feature :=
  mkFeature (Some (MultiPolygon threePartsCoords)) [("name", JString "islands")].

(** A drawn triangle, left open, the polygon made of it and the path read
    back from that polygon. *)
Definition triangle : list LatLngLiteral :=
  [mkLatLng (num_of_Z 0) (num_of_Z 0); mkLatLng (num_of_Z 0) (num_of_Z 4);
   mkLatLng (num_of_Z 3) (num_of_Z 4)].

Definition triangleFeature : Feature :=
  polygonFeature [[pos 0 0; pos 4 0; pos 4 3; pos 0 0]].

Definition closedTriangle : list LatLngLiteral :=
  triangle ++ [mkLatLng (num_of_Z 0) (num_of_Z 0)].

(** A MultiPolygon whose only part has an area of [NaN]. *)
Definition nanParts : list (list (list Position)) :=
  [[[[S754_nan; zero]; pos 1 0; pos 1 1; [S754_nan; zero]]]].

Definition nanMulti : Feature := mkFeature (Some (MultiPolygon nanParts)) [].

(** The tiles of side 2 over the two squares and the answers of their
    quick checks. *)
Definition twoSquaresBox : BBox :=
  Eval vm_compute in
    match turfBbox planar twoSquares with
    | Ok b => b
    | Throw _ => []
    end.

Definition twoSquaresTiles : list Feature :=
  Eval vm_compute in
    match turfSquareGrid planar twoSquaresBox (div (num_of_Z 2000) (num_of_Z 1000))
                         kilometers with
    | Ok tiles => tiles
    | Throw _ => []
    end.

Definition twoSquaresFlags : list bool :=
  Eval vm_compute in
    match mapM (fun tile => turfBooleanIntersects planar tile twoSquares)
               twoSquaresTiles with
    | Ok flags => flags
    | Throw _ => []
    end.

(** A road without a vertex. *)
Definition emptyRoad : Feature := lineFeature [].

(** Its candidate against any boundary: the initial pair. *)
Definition emptyRoadCandidates : list (number * list Position) := [(Infinity, [])].

(** The state after selecting [threeParts]. *)
Definition threePartsState : BoundaryState :=
  Eval vm_compute in
    match selectResult planar (Some threeParts) with
    | Ok st => st
    | Throw _ => mkBoundaryState threeParts zero None
    end.

(** The request of the page for the unit square, buffered by 1, with
    two road types enabled. *)
Definition mainRoads : RoadTypes := mkRoadTypes true false true false.

Definition unitSquareRequest : Json :=
  Eval vm_compute in
    match roadsRequestBody planar planar_buffer unitSquare one mainRoads with
    | Ok body => body
    | Throw _ => JNull
    end.

(** ** A key for the order on numbers

    [rank] sends every number but [NaN] to a triple whose lexicographic
    order is the order [<] of the numbers; the two zeros share a key. *)

Definition rank (a : number) : option (Z * Z * Z) :=
  match a with
  | S754_nan => None
  | S754_infinity false => Some (2, 0, 0)
  | S754_infinity true => Some (-2, 0, 0)
  | S754_zero _ => Some (0, 0, 0)
  | S754_finite false m e => Some (1, e, Zpos m)
  | S754_finite true m e => Some (-1, - e, Zneg m)
  end.

Definition lex3 (x y : Z * Z * Z) : comparison :=
  match fst (fst x) ?= fst (fst y) with
  | Eq => match snd (fst x) ?= snd (fst y) with
          | Eq => snd x ?= snd y
          | c => c
          end
  | c => c
  end.

Definition lt3 (x y : Z * Z * Z) : Prop :=
  fst (fst x) < fst (fst y) \/
  fst (fst x) = fst (fst y) /\
    (snd (fst x) < snd (fst y) \/ snd (fst x) = snd (fst y) /\ snd x < snd y).

(** * Properties *)

(** ** The order on numbers *)

Lemma SFcompare_rank (a b : number) :
  SFcompare a b =
  match rank a, rank b with
  | Some x, Some y => Some (lex3 x y)
  | _, _ => None
  end.
Proof.
  destruct a as [sa|sa| |sa ma ea], b as [sb|sb| |sb mb eb];
    try destruct sa; try destruct sb; try reflexivity.
  unfold lex3; cbn [SFcompare rank fst snd].
  change (-1 ?= -1) with Eq; cbv iota.
  rewrite Z.compare_opp.
  destruct (ea ?= eb) eqn:E.
  - apply Z.compare_eq in E. subst. rewrite Z.compare_refl. reflexivity.
  - rewrite Z.compare_antisym, E. reflexivity.
  - rewrite Z.compare_antisym, E. reflexivity.
Qed.

Lemma ltb_rank (a b : number) :
  ltb a b = true <-> exists x y, rank a = Some x /\ rank b = Some y /\ lt3 x y.
Proof.
  unfold ltb, SFltb, lt3. rewrite SFcompare_rank.
  destruct (rank a) as [x|], (rank b) as [y|];
    try (split; [discriminate | intros (?&?&?&?&?); congruence]).
  unfold lex3.
  destruct (Z.compare_spec (fst (fst x)) (fst (fst y)));
  destruct (Z.compare_spec (snd (fst x)) (snd (fst y)));
  destruct (Z.compare_spec (snd x) (snd y));
  (split; [ intros; try discriminate; exists x, y; repeat split; lia
          | intros (x'&y'&Hx&Hy&H'); inversion Hx; inversion Hy; subst;
            try reflexivity; lia ]).
Qed.

Lemma leb_rank (a b : number) :
  leb a b = true <->
  exists x y, rank a = Some x /\ rank b = Some y /\ (lt3 x y \/ x = y).
Proof.
  unfold leb, SFleb, lt3. rewrite SFcompare_rank.
  destruct (rank a) as [[[x1 x2] x3]|], (rank b) as [[[y1 y2] y3]|];
    try (split; [discriminate | intros (?&?&?&?&?); congruence]).
  unfold lex3; cbn [fst snd].
  destruct (Z.compare_spec x1 y1);
  destruct (Z.compare_spec x2 y2);
  destruct (Z.compare_spec x3 y3);
  (split;
   [ intros; try discriminate;
     (eexists; eexists; (split; [reflexivity | (split; [reflexivity | ])]));
     cbn [fst snd]; first [ right; congruence | left; lia ]
   | intros (x'&y'&Hx&Hy&H'); inversion Hx; inversion Hy; subst x' y';
     cbn [fst snd] in *; destruct H' as [H'|H'];
     [ try reflexivity; lia | inversion H'; try reflexivity; lia ] ]).
Qed.

Lemma rank_isNaN (a : number) : isNaN a = false <-> exists x, rank a = Some x.
Proof.
  destruct a as [s|s| |s m e]; try destruct s; cbn; split; intros H;
    try reflexivity; try discriminate; try (eexists; reflexivity).
  destruct H; discriminate.
Qed.

(** Turns every comparison among the hypotheses into a fact on keys. *)
Ltac same_keys :=
  repeat match goal with
  | H1 : rank ?a = Some ?x, H2 : rank ?a = Some ?y |- _ =>
      rewrite H1 in H2; inversion H2; clear H2; subst
  end.

Ltac num_keys :=
  unfold gtb in *;
  repeat match goal with
  | H : ltb _ _ = true |- _ => apply ltb_rank in H; destruct H as (?&?&?&?&?)
  | H : leb _ _ = true |- _ => apply leb_rank in H; destruct H as (?&?&?&?&?)
  | H : isNaN _ = false |- _ => apply rank_isNaN in H; destruct H as (?&?)
  end;
  same_keys;
  repeat match goal with
  | H : lt3 _ _ \/ _ = _ |- _ => destruct H as [H|H]; [| subst]
  end;
  same_keys;
  unfold lt3 in *.

Ltac ltb_by_keys :=
  num_keys; apply ltb_rank; do 2 eexists;
  (split; [eassumption | (split; [eassumption | unfold lt3; lia])]).

Ltac leb_by_keys :=
  num_keys; apply leb_rank; do 2 eexists;
  (split; [eassumption | (split; [eassumption
                                 | first [ right; reflexivity | left; unfold lt3; lia ]])]).

Lemma ltb_trans (a b c : number) : ltb a b = true -> ltb b c = true -> ltb a c = true.
Proof. intros. ltb_by_keys. Qed.

Lemma ltb_leb_trans (a b c : number) : ltb a b = true -> leb b c = true -> ltb a c = true.
Proof. intros. ltb_by_keys. Qed.

Lemma leb_ltb_trans (a b c : number) : leb a b = true -> ltb b c = true -> ltb a c = true.
Proof. intros. ltb_by_keys. Qed.

Lemma leb_trans (a b c : number) : leb a b = true -> leb b c = true -> leb a c = true.
Proof. intros. leb_by_keys. Qed.

Lemma ltb_leb_incl (a b : number) : ltb a b = true -> leb a b = true.
Proof. intros. leb_by_keys. Qed.

Lemma ltb_irrefl (a : number) : ltb a a = false.
Proof.
  destruct (ltb a a) eqn:H; [|reflexivity]. num_keys. lia.
Qed.

Lemma ltb_asym (a b : number) : ltb a b = true -> ltb b a = false.
Proof.
  intros H. destruct (ltb b a) eqn:H'; [|reflexivity]. num_keys. lia.
Qed.

Lemma leb_not_ltb (a b : number) : leb a b = true -> ltb b a = false.
Proof.
  intros H. destruct (ltb b a) eqn:H'; [|reflexivity]. num_keys; lia.
Qed.

Lemma ltb_isNaN (a b : number) : ltb a b = true -> isNaN a = false /\ isNaN b = false.
Proof. intros. num_keys. split; apply rank_isNaN; eauto. Qed.

Lemma leb_isNaN (a b : number) : leb a b = true -> isNaN a = false /\ isNaN b = false.
Proof. intros. num_keys; split; apply rank_isNaN; eauto. Qed.

Lemma leb_refl (a : number) : isNaN a = false -> leb a a = true.
Proof. intros. leb_by_keys. Qed.

(** On numbers that are not [NaN] the order is total. *)
Lemma not_ltb_leb (a b : number) :
  isNaN a = false -> isNaN b = false -> ltb a b = false -> leb b a = true.
Proof.
  intros Ha Hb H. num_keys.
  match goal with
  | Hx : rank a = Some ?x, Hy : rank b = Some ?y |- _ =>
      destruct x as [[x1 x2] x3], y as [[y1 y2] y3];
      assert (Hn : ~ lt3 (x1, x2, x3) (y1, y2, y3))
        by (intros Hlt; assert (ltb a b = true)
              by (apply ltb_rank; do 2 eexists; repeat split; eauto); congruence);
      apply leb_rank; do 2 eexists; repeat split; eauto;
      unfold lt3 in *; cbn [fst snd] in *;
      destruct (Z.eq_dec x1 y1), (Z.eq_dec x2 y2), (Z.eq_dec x3 y3);
      subst; first [ right; reflexivity | left; lia ]
  end.
Qed.

(** ** Loops *)

Lemma forEachI_index {A St : Type} (f : St -> A -> result St) (xs : list A)
    (i j : nat) (s : St) :
  forEachI (fun s x _ => f s x) xs i s = forEachI (fun s x _ => f s x) xs j s.
Proof.
  revert i j s. induction xs as [|x xs IH]; intros i j s; [reflexivity|].
  cbn. destruct (f s x); cbn; [apply IH | reflexivity].
Qed.

Lemma forEach_cons {A St : Type} (f : St -> A -> result St) (x : A) (xs : list A)
    (s : St) :
  forEach f (x :: xs) s = (s' <- f s x ;; forEach f xs s').
Proof.
  unfold forEach. cbn. destruct (f s x); cbn; [apply forEachI_index | reflexivity].
Qed.

Lemma bind_Ok {A B : Type} (c : result A) (k : A -> result B) (b : B) :
  bind c k = Ok b -> exists a, c = Ok a /\ k a = Ok b.
Proof. destruct c; cbn; [eauto | discriminate]. Qed.

(** An invariant of the loop variables holds after the loop. *)
Lemma forEach_invariant {A St : Type} (P : St -> Prop) (f : St -> A -> result St)
    (xs : list A) :
  (forall s x s', In x xs -> P s -> f s x = Ok s' -> P s') ->
  forall s s', P s -> forEach f xs s = Ok s' -> P s'.
Proof.
  induction xs as [|x xs IH]; intros Hstep s s' Hs Hrun.
  - inversion Hrun; subst; exact Hs.
  - rewrite forEach_cons in Hrun. apply bind_Ok in Hrun as (s1 & H1 & H2).
    eapply IH; [ | | exact H2].
    + intros; eapply Hstep; eauto. now right.
    + eapply Hstep; eauto. now left.
Qed.

Lemma forEach_forall {A St : Type} (Q : A -> St -> Prop) (f : St -> A -> result St)
    (xs : list A) :
  (forall s x s', f s x = Ok s' -> Q x s') ->
  (forall y s x s', Q y s -> f s x = Ok s' -> Q y s') ->
  forall s s', forEach f xs s = Ok s' -> Forall (fun x => Q x s') xs.
Proof.
  intros Hnew Hkeep. induction xs as [|x xs IH]; intros s s' Hrun; [constructor|].
  rewrite forEach_cons in Hrun. apply bind_Ok in Hrun as (s1 & H1 & H2).
  constructor; [|eapply IH; eauto].
  eapply (forEach_invariant (Q x)); [ | eapply Hnew; eauto | exact H2].
  intros; eapply Hkeep; eauto.
Qed.

Lemma forEachI_invariant {A St : Type} (P : St -> Prop)
    (f : St -> A -> nat -> result St) (xs : list A) (i0 : nat) :
  (forall s x k s', nth_error xs k = Some x -> P s -> f s x (i0 + k)%nat = Ok s' -> P s') ->
  forall s s', P s -> forEachI f xs i0 s = Ok s' -> P s'.
Proof.
  revert i0. induction xs as [|x xs IH]; intros i0 Hstep s s' Hs Hrun.
  - inversion Hrun; subst; exact Hs.
  - cbn in Hrun. apply bind_Ok in Hrun as (s1 & H1 & H2).
    eapply (IH (S i0)); [ | | exact H2].
    + intros s2 y k s3 Hk Hs2 Hf. eapply (Hstep s2 y (S k)); eauto.
      now rewrite Nat.add_succ_r.
    + eapply (Hstep s x 0%nat); eauto. now rewrite Nat.add_0_r.
Qed.

Lemma mapM_Forall {A B : Type} (f : A -> result B) (P : B -> Prop) (xs : list A)
    (ys : list B) :
  (forall x y, f x = Ok y -> P y) -> mapM f xs = Ok ys -> Forall P ys.
Proof.
  intros Hf. revert ys. induction xs as [|x xs IH]; intros ys H.
  - inversion H; constructor.
  - cbn in H. apply bind_Ok in H as (y & Hy & H). apply bind_Ok in H as (ys' & Hys & H).
    inversion H; subst. constructor; eauto.
Qed.



(** ** normalizePolygon *)

Section NormalizeProofs.

Context (T : Backend).

Lemma polygon_Ok (c : list (list Position)) (p : Feature) :
  polygon T c = Ok p -> p = mkFeature (Some (Polygon c)) [].
Proof.
  unfold polygon. destruct (polygonRejects T c); [discriminate|].
  intros H; inversion H; reflexivity.
Qed.

Lemma partArea_polygon (c : list (list Position)) (a : number) :
  partArea T c = Ok a -> polygon T c = Ok (mkFeature (Some (Polygon c)) []).
Proof.
  unfold partArea, polygon. destruct (polygonRejects T c); [discriminate | reflexivity].
Qed.

Lemma minus_one_ltb_zero : ltb (num_of_Z (-1)) zero = true.
Proof. reflexivity. Qed.

Lemma scan_step (done : list (list (list Position))) (p : list (list Position))
    (st : number * option (list (list Position))) :
  scanned T done st -> areaOk T p ->
  exists st', normalizeStep T st p = Ok st' /\ scanned T (done ++ [p]) st'.
Proof.
  intros Hinv (a & Ha & Hpos). unfold normalizeStep. rewrite Ha. cbn [bind].
  assert (Hnan : isNaN a = false) by (apply leb_isNaN in Hpos; tauto).
  destruct (gtb a (fst st)) eqn:Hgt.
  - eexists; split; [reflexivity|]. right.
    exists (List.length done), p, a. repeat split.
    + rewrite nth_error_app2, Nat.sub_diag by lia. reflexivity.
    + assumption.
    + destruct (Nat.lt_ge_cases j (List.length done)) as [Hj|Hj].
      * rewrite nth_error_app1 in H by assumption.
        destruct Hinv as [[-> _]|(i & best & a0 & _ & _ & -> & Hall)];
          [cbn in Hj; lia|].
        destruct (Hall _ _ _ H H0) as [Hle _]. cbn [fst] in Hgt.
        apply ltb_leb_incl. eapply leb_ltb_trans; eauto.
      * rewrite nth_error_app2 in H by assumption.
        destruct (j - List.length done)%nat as [|n] eqn:E; cbn in H;
          [|destruct n; discriminate].
        inversion H; subst. rewrite Ha in H0. inversion H0; subst.
        now apply leb_refl.
    + intros Hj. rewrite nth_error_app1 in H by assumption.
      destruct Hinv as [[-> _]|(i & best & a0 & _ & _ & -> & Hall)];
        [cbn in Hj; lia|].
      destruct (Hall _ _ _ H H0) as [Hle _]. cbn [fst] in Hgt.
      eapply leb_ltb_trans; eauto.
  - destruct Hinv as [[-> ->]|(i & best & a0 & Hi & Hbest & -> & Hall)].
    + cbn [fst] in Hgt. unfold gtb in Hgt.
      rewrite (ltb_leb_trans _ _ _ minus_one_ltb_zero Hpos) in Hgt. discriminate.
    + eexists; split; [reflexivity|]. right.
      exists i, best, a0. repeat split.
      * rewrite nth_error_app1; [assumption|]. apply nth_error_Some. congruence.
      * assumption.
      * destruct (Nat.lt_ge_cases j (List.length done)) as [Hj|Hj].
        -- rewrite nth_error_app1 in H by assumption. now apply (Hall _ _ _ H H0).
        -- rewrite nth_error_app2 in H by assumption.
           destruct (j - List.length done)%nat as [|n] eqn:E; cbn in H;
             [|destruct n; discriminate].
           inversion H; subst. rewrite Ha in H0. inversion H0; subst.
           cbn [fst] in Hgt. apply not_ltb_leb; auto.
           destruct (Hall _ _ _ Hi Hbest) as [Hle _]. apply leb_isNaN in Hle. tauto.
      * intros Hj.
        assert (j < List.length done)%nat
          by (assert (i < List.length done)%nat
                by (apply nth_error_Some; congruence); lia).
        rewrite nth_error_app1 in H by assumption. now apply (Hall _ _ _ H H0).
Qed.

Lemma scan_all (todo done : list (list (list Position)))
    (st : number * option (list (list Position))) :
  scanned T done st -> Forall (areaOk T) todo ->
  exists st', forEach (normalizeStep T) todo st = Ok st' /\ scanned T (done ++ todo) st'.
Proof.
  revert done st. induction todo as [|p todo IH]; intros done st Hinv Hok.
  - exists st. rewrite app_nil_r. split; [reflexivity | assumption].
  - inversion Hok as [|? ? Hp Hrest]; subst.
    destruct (scan_step done p st Hinv Hp) as (st1 & Hstep & Hinv1).
    destruct (IH (done ++ [p]) st1 Hinv1 Hrest) as (st' & Hrun & Hinv').
    exists st'. rewrite forEach_cons, Hstep. cbn [bind].
    rewrite <- app_assoc in Hinv'. split; assumption.
Qed.

(** C3, as the code has it.  For a MultiPolygon whose parts all have an
    area (the helper accepts them and the area primitive returns a number
    that is at least 0), [normalizePolygon] returns null when there is no
    part, and otherwise the Polygon of the part at some index [i] whose
    area is strictly greater than the area of every part before it and at
    least the area of every part after it: the part of maximum area, the
    first one among equals.  The area is the one the area primitive
    reports for the part with all its rings. *)
Theorem normalize_multi_largest_first (f : Feature)
    (parts : list (list (list Position))) :
  geometry f = Some (MultiPolygon parts) ->
  Forall (areaOk T) parts ->
  match parts with
  | [] => normalizePolygon T (Some f) = Ok None
  | _ :: _ =>
      exists i best a,
        nth_error parts i = Some best /\
        partArea T best = Ok a /\
        normalizePolygon T (Some f) = Ok (Some (mkFeature (Some (Polygon best)) [])) /\
        forall j p a', nth_error parts j = Some p -> partArea T p = Ok a' ->
          leb a' a = true /\ ((j < i)%nat -> ltb a' a = true)
  end.
Proof.
  intros Hgeo Hok. unfold normalizePolygon. rewrite Hgeo.
  destruct (scan_all parts [] (num_of_Z (-1), None)) as (st & Hrun & Hinv);
    [left; split; reflexivity | assumption |].
  rewrite Hrun. cbn [bind app] in *.
  destruct parts as [|p0 rest].
  - destruct Hinv as [[_ ->]|(i & best & a & Hi & _)]; [reflexivity|].
    destruct i; discriminate.
  - destruct Hinv as [[Hnil _]|(i & best & a & Hi & Hbest & -> & Hall)];
      [discriminate|].
    exists i, best, a. cbn [snd]. rewrite (partArea_polygon _ _ Hbest). cbn [bind].
    repeat split; auto; now apply (Hall _ _ _ H H0).
Qed.

(** C7.  A Polygon feature passes through unchanged, and whatever
    [normalizePolygon] returns, a feature or null, is returned unchanged
    when normalized again. *)
Theorem normalize_idempotent (p r : option Feature) :
  normalizePolygon T p = Ok r ->
  (forall f c, geometry f = Some (Polygon c) -> normalizePolygon T (Some f) = Ok (Some f)) /\
  normalizePolygon T r = Ok r.
Proof.
  intros Hrun.
  assert (Hpass : forall f c, geometry f = Some (Polygon c) ->
                              normalizePolygon T (Some f) = Ok (Some f))
    by (intros f c Hf; unfold normalizePolygon; rewrite Hf; reflexivity).
  split; [exact Hpass|].
  destruct r as [r|]; [|reflexivity].
  unfold normalizePolygon in Hrun.
  destruct p as [f|]; [|discriminate].
  destruct (geometry f) as [[c|c|c|c]|] eqn:Hgeo; try discriminate.
  - inversion Hrun; subst. eapply Hpass; eauto.
  - apply bind_Ok in Hrun as (st & _ & Hrest).
    destruct (snd st) as [best|]; [|discriminate].
    apply bind_Ok in Hrest as (q & Hq & Hret). inversion Hret; subst.
    apply polygon_Ok in Hq. subst r. eapply Hpass; reflexivity.
Qed.

End NormalizeProofs.

(** The spec's example: of parts with areas 3, 10 and 1 the one of area 10
    is returned. *)
Example normalize_three_parts :
  normalizePolygon planar (Some threeParts)
  = Ok (Some (polygonFeature [rect 10 0 12 5])).
Proof. vm_compute. reflexivity. Qed.

(** The part with the larger outer ring loses to the part with the larger
    area once its hole is taken off. *)
Example normalize_holed :
  normalizePolygon planar (Some holed) = Ok (Some (polygonFeature [rect 10 0 14 5])) /\
  outerRingArea planar [rect 0 0 6 4; rect 1 1 5 3] = Ok (num_of_Z 24) /\
  outerRingArea planar [rect 10 0 14 5] = Ok (num_of_Z 20) /\
  partArea planar [rect 0 0 6 4; rect 1 1 5 3] = Ok (num_of_Z 16).
Proof. vm_compute. repeat split. Qed.

(** C3 as stated does not hold: the part returned need not be the one
    whose area computed from the outer ring only is the maximum. *)
Lemma normalize_not_by_outer_ring :
  ~ (forall (T : Backend) (f : Feature) (parts : list (list (list Position))),
       geometry f = Some (MultiPolygon parts) ->
       parts <> [] ->
       Forall (areaOk T) parts ->
       exists i best a,
         nth_error parts i = Some best /\
         outerRingArea T best = Ok a /\
         normalizePolygon T (Some f) = Ok (Some (mkFeature (Some (Polygon best)) [])) /\
         forall j p a', nth_error parts j = Some p -> outerRingArea T p = Ok a' ->
           leb a' a = true /\ ((j < i)%nat -> ltb a' a = true)).
Proof.
  intros H.
  destruct (H planar holed holedParts eq_refl) as (i & best & a & _ & Ha & Hn & Hall).
  - discriminate.
  - repeat constructor; eexists; split; vm_compute; reflexivity.
  - destruct normalize_holed as (Hrun & Hout0 & Hout1 & _).
    rewrite Hrun in Hn. inversion Hn; subst best.
    rewrite Hout1 in Ha. inversion Ha; subst a.
    destruct (Hall 0%nat _ _ eq_refl Hout0) as [Hle _].
    vm_compute in Hle. discriminate.
Qed.

(** The scan on the three parts. *)
Lemma normalize_multi_largest_first_witness :
  geometry threeParts = Some (MultiPolygon threePartsCoords) /\
  Forall (areaOk planar) threePartsCoords /\
  exists i best a,
    nth_error threePartsCoords i = Some best /\
    partArea planar best = Ok a /\
    normalizePolygon planar (Some threeParts)
    = Ok (Some (mkFeature (Some (Polygon best)) [])) /\
    forall j p a', nth_error threePartsCoords j = Some p -> partArea planar p = Ok a' ->
      leb a' a = true /\ ((j < i)%nat -> ltb a' a = true).
Proof.
  assert (H1 : geometry threeParts = Some (MultiPolygon threePartsCoords))
    by reflexivity.
  assert (H2 : Forall (areaOk planar) threePartsCoords)
    by (repeat constructor; eexists; split; vm_compute; reflexivity).
  exact (conj H1 (conj H2
           (normalize_multi_largest_first planar threeParts threePartsCoords H1 H2))).
Defined.

(** Normalizing the three parts, and the result once more. *)
Lemma normalize_idempotent_witness :
  normalizePolygon planar (Some threeParts)
  = Ok (Some (polygonFeature [rect 10 0 12 5])) /\
  (forall f c, geometry f = Some (Polygon c) ->
               normalizePolygon planar (Some f) = Ok (Some f)) /\
  normalizePolygon planar (Some (polygonFeature [rect 10 0 12 5]))
  = Ok (Some (polygonFeature [rect 10 0 12 5])).
Proof.
  exact (conj normalize_three_parts
           (normalize_idempotent planar (Some threeParts) _ normalize_three_parts)).
Defined.

(** ** findClosestRoadAndConnection *)

Lemma ltb_Infinity_l (g : number) : ltb Infinity g = false.
Proof.
  destruct (ltb Infinity g) eqn:H; [|reflexivity]. num_keys.
  match goal with H : rank Infinity = Some _ |- _ => inversion H; subst end.
  match goal with H : rank g = Some _ |- _ => revert H end.
  destruct g as [s|s| |s m e]; try destruct s; cbn; intros Hr; inversion Hr; subst;
    cbn [fst snd] in *; lia.
Qed.


Section ClosestProofs.

Context (T : Backend).

Lemma sampleA_cases (road : Feature) (st st' : number * list Position)
    (pt : PointFeature) :
  sampleA T road st pt = Ok st' ->
  (st' = st /\ forall d np, sampleAt T road pt d np -> ltb d (fst st) = false) \/
  (exists d np, sampleAt T road pt d np /\ ltb d (fst st) = true /\
                st' = (d, [pt_coordinates pt; np_coordinates np])).
Proof.
  unfold sampleA. intros H. apply bind_Ok in H as (nearest & Hn & H).
  destruct (distOf nearest) as [[d np]|] eqn:Hd.
  - destruct (ltb d (fst st)) eqn:Hlt; inversion H; subst.
    + right. exists d, np. repeat split; auto. exists nearest; auto.
    + left. split; [reflexivity|]. intros d' np' (n' & Hn' & Hd').
      rewrite Hn in Hn'. inversion Hn'; subst. rewrite Hd in Hd'.
      inversion Hd'; subst. assumption.
  - inversion H; subst. left. split; [reflexivity|].
    intros d' np' (n' & Hn' & Hd'). rewrite Hn in Hn'. inversion Hn'; subst.
    congruence.
Qed.

Lemma sampleB_cases (boundary : Feature) (st st' : number * list Position)
    (pt : PointFeature) :
  sampleB T boundary st pt = Ok st' ->
  (st' = st /\ forall d np, sampleAt T boundary pt d np -> ltb d (fst st) = false) \/
  (exists d np, sampleAt T boundary pt d np /\ ltb d (fst st) = true /\
                st' = (d, [np_coordinates np; pt_coordinates pt])).
Proof.
  unfold sampleB. intros H. apply bind_Ok in H as (nearest & Hn & H).
  destruct (distOf nearest) as [[d np]|] eqn:Hd.
  - destruct (ltb d (fst st)) eqn:Hlt; inversion H; subst.
    + right. exists d, np. repeat split; auto. exists nearest; auto.
    + left. split; [reflexivity|]. intros d' np' (n' & Hn' & Hd').
      rewrite Hn in Hn'. inversion Hn'; subst. rewrite Hd in Hd'.
      inversion Hd'; subst. assumption.
  - inversion H; subst. left. split; [reflexivity|].
    intros d' np' (n' & Hn' & Hd'). rewrite Hn in Hn'. inversion Hn'; subst.
    congruence.
Qed.

Lemma below_Infinity (d g : number) :
  ltb d g = true -> g = Infinity \/ ltb g Infinity = true -> ltb d Infinity = true.
Proof. intros H [->|Hg]; [assumption | eapply ltb_trans; eauto]. Qed.

Lemma fromSample_below (boundary road : Feature) (st : number * list Position) :
  fromSample T boundary road st -> fst st = Infinity \/ ltb (fst st) Infinity = true.
Proof. intros [->|[H _]]; [left; reflexivity | right; assumption]. Qed.

Lemma candidate_fromSample (boundary road : Feature) (c : number * list Position) :
  candidate T boundary road = Ok c -> fromSample T boundary road c.
Proof.
  unfold candidate. intros H.
  apply bind_Ok in H as (bps & Hb & H). apply bind_Ok in H as (st & HA & H).
  apply bind_Ok in H as (rps & Hr & HB).
  assert (HstA : fromSample T boundary road st).
  { eapply (forEach_invariant (fromSample T boundary road)); [ | | exact HA];
      [|left; reflexivity].
    intros s pt s' Hin Hs Hstep.
    destruct (sampleA_cases _ _ _ _ Hstep) as [[-> _]|(d & np & Hsa & Hlt & ->)];
      [assumption|].
    right. cbn [fst snd]. split.
    - eapply below_Infinity; eauto using fromSample_below.
    - left. exists bps, pt, np. auto. }
  eapply (forEach_invariant (fromSample T boundary road)); [ | exact HstA | exact HB].
  intros s pt s' Hin Hs Hstep.
  destruct (sampleB_cases _ _ _ _ Hstep) as [[-> _]|(d & np & Hsa & Hlt & ->)];
    [assumption|].
  right. cbn [fst snd]. split.
  - eapply below_Infinity; eauto using fromSample_below.
  - right. exists rps, pt, np. auto.
Qed.




Lemma candidate_not_NaN (boundary road : Feature) (c : number * list Position) :
  candidate T boundary road = Ok c -> isNaN (fst c) = false.
Proof.
  intros H. destruct (candidate_fromSample _ _ _ H) as [->|[Hlt _]]; [reflexivity|].
  apply ltb_isNaN in Hlt. tauto.
Qed.

Lemma roads_forEach_select (boundary : Feature) (roads : list Feature)
    (cands : list (number * list Position)) :
  mapM (candidate T boundary) roads = Ok cands ->
  forall i st, forEachI (roadStep T boundary) roads i st = Ok (selectFrom cands i st).
Proof.
  revert cands. induction roads as [|r roads IH]; intros cands H i st.
  - inversion H; subst. reflexivity.
  - cbn in H. apply bind_Ok in H as (c & Hc & H). apply bind_Ok in H as (cs & Hcs & H).
    inversion H; subst. cbn. unfold roadStep at 1. rewrite Hc. cbn [bind].
    destruct (ltb (fst c) (fst (fst st))); cbn [bind]; apply IH; assumption.
Qed.

Lemma chosen_step (done : list (number * list Position)) (x : number * list Position)
    (st : number * Z * list Position) :
  Forall (fun c => isNaN (fst c) = false) done ->
  chosen done st ->
  chosen (done ++ [x])
    (if ltb (fst x) (fst (fst st))
     then (fst x, Z.of_nat (List.length done), snd x) else st).
Proof.
  intros Hnan Hinv. rewrite Forall_forall in Hnan.
  destruct (ltb (fst x) (fst (fst st))) eqn:Hlt.
  - right. exists (List.length done), x.
    assert (Hbelow : forall j c', (j < List.length done)%nat ->
              nth_error done j = Some c' -> ltb (fst x) (fst c') = true).
    { intros j c' Hj Hc'.
      assert (Hc'nan : isNaN (fst c') = false)
        by (apply Hnan; eapply nth_error_In; eauto).
      destruct Hinv as [[-> Hall]|(i & c & _ & -> & Hc & Hmin)]; cbn [fst] in Hlt.
      - rewrite Forall_forall in Hall.
        eapply ltb_leb_trans; [exact Hlt|]. apply not_ltb_leb; auto.
        apply Hall. eapply nth_error_In; eauto.
      - eapply ltb_leb_trans; [exact Hlt|]. apply not_ltb_leb; auto.
        + apply ltb_isNaN in Hc. tauto.
        + now apply (Hmin _ _ Hc'). }
    repeat split.
    + rewrite nth_error_app2, Nat.sub_diag by lia. reflexivity.
    + destruct Hinv as [[-> _]|(i & c & _ & -> & Hc & _)]; cbn [fst] in Hlt;
        [assumption | eapply ltb_trans; eauto].
    + destruct (Nat.lt_ge_cases j (List.length done)) as [Hj|Hj].
      * rewrite nth_error_app1 in H by assumption. apply ltb_asym. eauto.
      * rewrite nth_error_app2 in H by assumption.
        destruct (j - List.length done)%nat as [|n]; cbn in H;
          [|destruct n; discriminate].
        inversion H; subst. apply ltb_irrefl.
    + intros Hj. rewrite nth_error_app1 in H by assumption. eauto.
  - destruct Hinv as [[-> Hall]|(i & c & Hi & -> & Hc & Hmin)]; cbn [fst] in Hlt.
    + left. split; [reflexivity|]. apply Forall_app. split; [assumption|].
      constructor; [assumption | constructor].
    + right. exists i, c.
      assert (Hi' : (i < List.length done)%nat) by (apply nth_error_Some; congruence).
      repeat split; auto.
      * rewrite nth_error_app1; assumption.
      * destruct (Nat.lt_ge_cases j (List.length done)) as [Hj|Hj].
        -- rewrite nth_error_app1 in H by assumption. now apply (Hmin _ _ H).
        -- rewrite nth_error_app2 in H by assumption.
           destruct (j - List.length done)%nat as [|n]; cbn in H;
             [|destruct n; discriminate].
           inversion H; subst. assumption.
      * intros Hj. rewrite nth_error_app1 in H by lia. now apply (Hmin _ _ H).
Qed.

Lemma chosen_all (todo done : list (number * list Position))
    (st : number * Z * list Position) :
  Forall (fun c => isNaN (fst c) = false) (done ++ todo) ->
  chosen done st ->
  chosen (done ++ todo) (selectFrom todo (List.length done) st).
Proof.
  revert done st. induction todo as [|x todo IH]; intros done st Hnan Hinv.
  - rewrite app_nil_r. exact Hinv.
  - cbn [selectFrom].
    replace (done ++ x :: todo) with ((done ++ [x]) ++ todo) in *
      by (rewrite <- app_assoc; reflexivity).
    replace (S (List.length done)) with (List.length (done ++ [x]))
      by (rewrite length_app; cbn; lia).
    apply IH; [assumption|]. apply chosen_step; [|assumption].
    apply Forall_app in Hnan as [Hnan _]. apply Forall_app in Hnan as [Hnan _].
    exact Hnan.
Qed.

(** When no road has a candidate below [Infinity] the search returns
    null. *)
Lemma closest_none_without_sample (pf : Feature) (r : Feature) (roads : list Feature)
    (boundary : Feature) (more : list Feature)
    (cands : list (number * list Position)) :
  boundaryLinesOf T pf = Ok (boundary :: more) ->
  mapM (candidate T boundary) (r :: roads) = Ok cands ->
  Forall (fun c => ltb (fst c) Infinity = false) cands ->
  findClosestRoadAndConnection T (Some pf) (Some (r :: roads)) = Ok None.
Proof.
  intros Hb Hc Hall.
  assert (Hnan : Forall (fun c => isNaN (fst c) = false) cands)
    by (eapply mapM_Forall; [|exact Hc]; intros; eapply candidate_not_NaN; eauto).
  pose proof (chosen_all cands [] (Infinity, -1, []) Hnan) as Hsel.
  cbn [app List.length] in Hsel.
  destruct Hsel as [[Hst _]|(i & c & Hi & _ & Hlt & _)].
  - left. split; [reflexivity | constructor].
  - unfold findClosestRoadAndConnection. rewrite Hb. cbn [bind].
    rewrite (roads_forEach_select _ _ _ Hc), Hst. reflexivity.
  - rewrite Forall_forall in Hall.
    rewrite (Hall c (nth_error_In _ _ Hi)) in Hlt. discriminate.
Qed.


Lemma roads_forEach_picked (boundary : Feature) (roads : list Feature)
    (st : number * Z * list Position) :
  forEachI (roadStep T boundary) roads 0%nat (Infinity, -1, []) = Ok st ->
  picked T boundary roads st.
Proof.
  apply (forEachI_invariant (picked T boundary roads)); [|left; reflexivity].
  intros s road k s' Hk Hs Hstep. cbn [Nat.add] in Hstep.
  unfold roadStep in Hstep. apply bind_Ok in Hstep as (c & Hc & Hstep).
  destruct (ltb (fst c) (fst (fst s))) eqn:Hlt; inversion Hstep; subst; [|assumption].
  right. exists k, road. cbn [fst snd].
  destruct (candidate_fromSample _ _ _ Hc) as [->|[Hbelow Hsample]].
  - cbn [fst] in Hlt. rewrite ltb_Infinity_l in Hlt. discriminate.
  - auto.
Qed.

(** The run behind a non-null result. *)
Lemma closest_result_run (pf : option Feature) (roads : option (list Feature))
    (res : ClosestRoadResult) :
  findClosestRoadAndConnection T pf roads = Ok (Some res) ->
  exists f rs boundary more i road,
    pf = Some f /\ roads = Some rs /\
    boundaryLinesOf T f = Ok (boundary :: more) /\
    nth_error rs i = Some road /\ roadIndex res = Z.of_nat i /\
    ltb (distanceMeters res) Infinity = true /\
    sampleOf T boundary road (distanceMeters res) (connection res).
Proof.
  unfold findClosestRoadAndConnection. intros H.
  destruct pf as [f|]; [|discriminate].
  destruct roads as [[|r rs]|]; try discriminate.
  apply bind_Ok in H as (lines & Hlines & H).
  destruct lines as [|boundary more]; [discriminate|].
  apply bind_Ok in H as ([[g idx] conn] & Hrun & H).
  apply roads_forEach_picked in Hrun.
  destruct Hrun as [Hinit|(i & road & Hi & Hidx & Hlt & Hs)].
  - inversion Hinit; subst. discriminate.
  - cbn [fst snd] in *. subst idx.
    destruct (negb (Z.of_nat i =? -1)); inversion H; subst. cbn.
    exists f, (r :: rs), boundary, more, i, road. auto 10.
Qed.

(** C9.  The connection of a non-null result has two points, the
    boundary-side one first: it is a boundary vertex followed by the
    nearest point the backend found for it on the winning road, or the
    nearest boundary point of a vertex of the winning road followed by
    that vertex. *)
Theorem connection_boundary_side_first (pf : option Feature)
    (roads : option (list Feature)) (res : ClosestRoadResult) :
  findClosestRoadAndConnection T pf roads = Ok (Some res) ->
  exists f rs boundary more road b r,
    pf = Some f /\ roads = Some rs /\
    boundaryLinesOf T f = Ok (boundary :: more) /\
    nth_error rs (Z.to_nat (roadIndex res)) = Some road /\
    connection res = [b; r] /\
    ((exists pts pt np,
         turfExplode T boundary = Ok pts /\ In pt pts /\
         sampleAt T road pt (distanceMeters res) np /\
         b = pt_coordinates pt /\ r = np_coordinates np) \/
     (exists pts pt np,
         turfExplode T road = Ok pts /\ In pt pts /\
         sampleAt T boundary pt (distanceMeters res) np /\
         b = np_coordinates np /\ r = pt_coordinates pt)).
Proof.
  intros H.
  destruct (closest_result_run _ _ _ H)
    as (f & rs & boundary & more & i & road & -> & -> & Hb & Hi & Hidx & _ & Hs).
  rewrite Hidx, Nat2Z.id.
  destruct Hs as [(pts & pt & np & He & Hin & Hsa & Hconn)
                 |(pts & pt & np & He & Hin & Hsa & Hconn)].
  - exists f, rs, boundary, more, road, (pt_coordinates pt), (np_coordinates np).
    repeat (split; [solve [auto]|]). left. exists pts, pt, np. auto.
  - exists f, rs, boundary, more, road, (np_coordinates np), (pt_coordinates pt).
    repeat (split; [solve [auto]|]). right. exists pts, pt, np. auto.
Qed.

Lemma below_Infinity_finite (d : number) :
  ltb d Infinity = true -> d <> neg_Infinity -> isFinite d = true.
Proof.
  destruct d as [s|s| |s m e]; try reflexivity; try discriminate.
  destruct s; [intros _ H; now elim H | discriminate].
Qed.

(** C10.  A non-null result holds an index into the road list, a distance
    below [Infinity] (so neither [NaN] nor the initial value), finite as
    long as the backend never reports [-Infinity] as a distance, and a
    connection of exactly two coordinates. *)
Theorem closest_result_well_formed (pf : option Feature)
    (roads : option (list Feature)) (res : ClosestRoadResult) :
  (forall line pt d np, sampleAt T line pt d np -> d <> neg_Infinity) ->
  findClosestRoadAndConnection T pf roads = Ok (Some res) ->
  exists rs,
    roads = Some rs /\
    0 <= roadIndex res < Z.of_nat (List.length rs) /\
    ltb (distanceMeters res) Infinity = true /\
    isFinite (distanceMeters res) = true /\
    List.length (connection res) = 2%nat.
Proof.
  intros Hdist H.
  destruct (closest_result_run _ _ _ H)
    as (f & rs & boundary & more & i & road & -> & -> & Hb & Hi & Hidx & Hlt & Hs).
  exists rs. split; [reflexivity|].
  assert (Hlen : (i < List.length rs)%nat) by (apply nth_error_Some; congruence).
  split; [lia|]. split; [assumption|].
  destruct Hs as [(pts & pt & np & _ & _ & Hsa & ->)|(pts & pt & np & _ & _ & Hsa & ->)];
    (split; [apply below_Infinity_finite; eauto | reflexivity]).
Qed.

Lemma boundaryLines_grow (polys : list (list (list Position)))
    (acc out : list Feature) :
  forEach (fun lines poly =>
             l <- lineString T (nth_error poly 0) ;; Ok (lines ++ [l]))
          polys acc = Ok out ->
  List.length out = (List.length acc + List.length polys)%nat.
Proof.
  revert acc. induction polys as [|p polys IH]; intros acc H.
  - inversion H; subst. cbn. lia.
  - rewrite forEach_cons in H. apply bind_Ok in H as (acc1 & H1 & H2).
    apply bind_Ok in H1 as (l & _ & H1). inversion H1; subst.
    rewrite (IH _ H2), length_app. cbn. lia.
Qed.

(** No boundary line is built exactly when the geometry is a MultiPolygon
    without parts or no polygon at all. *)
Lemma boundaryLinesOf_nil (f : Feature) :
  boundaryLinesOf T f = Ok [] <->
  geometry f = Some (MultiPolygon []) \/
  (exists c, geometry f = Some (Point c)) \/
  (exists c, geometry f = Some (LineString c)).
Proof.
  unfold boundaryLinesOf. destruct (geometry f) as [[c|c|c|c]|]; split; intros H.
  - right. left. eauto.
  - reflexivity.
  - right. right. eauto.
  - reflexivity.
  - apply bind_Ok in H as (l & _ & H). discriminate.
  - destruct H as [H|[[c' H]|[c' H]]]; discriminate.
  - destruct c as [|p ps]; [left; reflexivity|].
    apply boundaryLines_grow in H. discriminate.
  - destruct H as [H|[[c' H]|[c' H]]]; try discriminate. inversion H; subst.
    reflexivity.
  - discriminate.
  - destruct H as [H|[[c' H]|[c' H]]]; discriminate.
Qed.


End ClosestProofs.

(** *** The search on the unit square

    [roadEast] and [roadNorth] both lie at distance 1; the one listed first
    wins, and the connection starts at the square's corner. *)
Example closest_of_three_roads :
  findClosestRoadAndConnection planar (Some unitSquare) (Some threeRoads)
  = Ok (Some (mkClosest 1 one [pos 1 0; pos 2 0])).
Proof. vm_compute. reflexivity. Qed.



(** The connection found on the unit square. *)
Lemma connection_boundary_side_first_witness :
  findClosestRoadAndConnection planar (Some unitSquare) (Some threeRoads)
  = Ok (Some (mkClosest 1 one [pos 1 0; pos 2 0])) /\
  exists f rs boundary more road b r,
    Some unitSquare = Some f /\ Some threeRoads = Some rs /\
    boundaryLinesOf planar f = Ok (boundary :: more) /\
    nth_error rs (Z.to_nat 1) = Some road /\
    [pos 1 0; pos 2 0] = [b; r] /\
    ((exists pts pt np,
         turfExplode planar boundary = Ok pts /\ In pt pts /\
         sampleAt planar road pt one np /\
         b = pt_coordinates pt /\ r = np_coordinates np) \/
     (exists pts pt np,
         turfExplode planar road = Ok pts /\ In pt pts /\
         sampleAt planar boundary pt one np /\
         b = np_coordinates np /\ r = pt_coordinates pt)).
Proof.
  exact (conj closest_of_three_roads
           (connection_boundary_side_first planar (Some unitSquare) (Some threeRoads)
              (mkClosest 1 one [pos 1 0; pos 2 0]) closest_of_three_roads)).
Defined.

(** The planar backend reports no distance of [-Infinity]: a distance is
    the initial [Infinity] or a square root. *)
Lemma round_keeps_sign (m e : Z) (l : location) :
  binary_round_aux prec emax false m e l <> neg_Infinity.
Proof.
  unfold binary_round_aux.
  destruct (shr_fexp prec emax m e l) as [mrs' e'].
  destruct (shr_fexp prec emax _ e' loc_Exact) as [mrs'' e''].
  destruct (shr_m mrs''); [discriminate | | discriminate].
  destruct (e'' <=? emax - prec); discriminate.
Qed.

Lemma sqrt_not_neg_Infinity (x : number) : sqrt x <> neg_Infinity.
Proof.
  destruct x as [s|s| |s m e]; try destruct s; try discriminate.
  unfold sqrt, SFsqrt.
  destruct (SFsqrt_core_binary prec emax (Z.pos m) e) as [[mz ez] lz].
  apply round_keeps_sign.
Qed.

Lemma nearestVertex_not_neg_Infinity (vs : list Position) (p : Position) :
  fst (nearestVertex vs p) <> neg_Infinity.
Proof.
  unfold nearestVertex.
  assert (H : forall best : number * Position,
             fst best <> neg_Infinity ->
             fst (fold_left (fun best v =>
                               let d := planar_distance p v in
                               if ltb d (fst best) then (d, v) else best)
                            vs best) <> neg_Infinity).
  { induction vs as [|v vs IH]; intros best Hbest; [exact Hbest|].
    cbn [fold_left]. apply IH. cbv zeta.
    destruct (ltb (planar_distance p v) (fst best)); [|exact Hbest].
    apply sqrt_not_neg_Infinity. }
  apply H. discriminate.
Qed.

Lemma planar_distances (line : Feature) (pt : PointFeature) (d : number)
    (np : NearestPoint) :
  sampleAt planar line pt d np -> d <> neg_Infinity.
Proof.
  intros (nearest & Hn & Hd). cbn in Hn. inversion Hn; subst. cbn in Hd.
  inversion Hd; subst. apply nearestVertex_not_neg_Infinity.
Qed.

(** The result found on the unit square. *)
Lemma closest_result_well_formed_witness :
  (forall line pt d np, sampleAt planar line pt d np -> d <> neg_Infinity) /\
  findClosestRoadAndConnection planar (Some unitSquare) (Some threeRoads)
  = Ok (Some (mkClosest 1 one [pos 1 0; pos 2 0])) /\
  exists rs,
    Some threeRoads = Some rs /\
    0 <= 1 < Z.of_nat (List.length rs) /\
    ltb one Infinity = true /\
    isFinite one = true /\
    List.length [pos 1 0; pos 2 0] = 2%nat.
Proof.
  exact (conj planar_distances (conj closest_of_three_roads
           (closest_result_well_formed planar (Some unitSquare) (Some threeRoads)
              (mkClosest 1 one [pos 1 0; pos 2 0])
              planar_distances closest_of_three_roads))).
Defined.

(** ** generateSubdivisionGrid *)

Section GridProofs.

Context (T : Backend).






(** C2, as the code has it.  Without a boundary the grid is empty.  With
    one, [cellSizeMeters] is not inspected: a thousandth of it goes to the
    tiling of the bounding box, the grid is empty when the tiling has no
    tile, and an error of the tiling is raised to the caller. *)
Theorem grid_follows_tiling (pf : Feature) (cellSizeMeters : number) (bbox : BBox) :
  turfBbox T pf = Ok bbox ->
  generateSubdivisionGrid T None cellSizeMeters = Ok [] /\
  (turfSquareGrid T bbox (div cellSizeMeters (num_of_Z 1000)) kilometers = Ok [] ->
   generateSubdivisionGrid T (Some pf) cellSizeMeters = Ok []) /\
  (forall e,
     turfSquareGrid T bbox (div cellSizeMeters (num_of_Z 1000)) kilometers = Throw e ->
     generateSubdivisionGrid T (Some pf) cellSizeMeters = Throw e).
Proof.
  intros Hb. unfold generateSubdivisionGrid. rewrite Hb. cbn [bind].
  split; [reflexivity|]. split.
  - intros ->. reflexivity.
  - intros e ->. reflexivity.
Qed.

End GridProofs.



(** A negative cell size reaches the tiling, which rejects it. *)
Example grid_negative_cell_size :
  generateSubdivisionGrid planar (Some unitSquare) (num_of_Z (-50))
  = Throw "length must be a positive number".
Proof. vm_compute. reflexivity. Qed.

(** A positive cell size gives an empty grid as well when no tile fits. *)
Example grid_oversized_cell :
  generateSubdivisionGrid planar (Some unitSquare) (num_of_Z 5000) = Ok [].
Proof. vm_compute. reflexivity. Qed.

(** C2 as stated does not hold: nothing in [generateSubdivisionGrid] makes
    a non-positive cell size give an empty grid. *)
Lemma grid_nonpositive_not_empty :
  ~ (forall (T : Backend) (pf : option Feature) (cellSizeMeters : number),
       leb cellSizeMeters zero = true ->
       generateSubdivisionGrid T pf cellSizeMeters = Ok []).
Proof.
  intros H.
  specialize (H planar (Some unitSquare) (num_of_Z (-50)) eq_refl).
  rewrite grid_negative_cell_size in H. discriminate.
Qed.

(** A tile side of 5 on the unit square: no tile, no cell. *)
Lemma grid_follows_tiling_witness :
  turfBbox planar unitSquare = Ok (boxOf (rect 0 0 1 1)) /\
  turfSquareGrid planar (boxOf (rect 0 0 1 1))
    (div (num_of_Z 5000) (num_of_Z 1000)) kilometers = Ok [] /\
  generateSubdivisionGrid planar None (num_of_Z 5000) = Ok [] /\
  generateSubdivisionGrid planar (Some unitSquare) (num_of_Z 5000) = Ok [].
Proof.
  assert (Hb : turfBbox planar unitSquare = Ok (boxOf (rect 0 0 1 1)))
    by (cbn; unfold planar_bbox; f_equal; cbn; now rewrite app_nil_r).
  assert (Hg : turfSquareGrid planar (boxOf (rect 0 0 1 1))
                 (div (num_of_Z 5000) (num_of_Z 1000)) kilometers = Ok [])
    by (vm_compute; reflexivity).
  exact (conj Hb (conj Hg
           (conj (proj1 (grid_follows_tiling planar unitSquare (num_of_Z 5000) _ Hb))
                 (proj1 (proj2 (grid_follows_tiling planar unitSquare (num_of_Z 5000)
                                  _ Hb)) Hg)))).
Defined.

(** ** Math.max *)

Lemma pick_greater (a x : number) :
  isNaN a = false -> isNaN x = false ->
  let r := if gtb x a then x else a in
  isNaN r = false /\ leb a r = true /\ leb x r = true /\ (r = a \/ r = x).
Proof.
  intros Ha Hx. cbv zeta. unfold gtb. destruct (ltb a x) eqn:E.
  - repeat split; auto using ltb_leb_incl, leb_refl.
  - repeat split; auto using not_ltb_leb, leb_refl.
Qed.

Lemma max_step_spec (a x : number) :
  isNaN a = false -> isNaN x = false ->
  isNaN (max_step a x) = false /\ leb a (max_step a x) = true /\
  leb x (max_step a x) = true /\ (max_step a x = a \/ max_step a x = x).
Proof.
  intros Ha Hx.
  destruct a as [[]|sa| |sa ma ea]; try discriminate;
  destruct x as [[]|sx| |sx mx ex]; try discriminate;
  try (apply pick_greater; reflexivity).
  cbn. auto.
Qed.

Lemma max_step_NaN_l (x : number) : max_step S754_nan x = S754_nan.
Proof. reflexivity. Qed.

Lemma max_step_NaN_r (a : number) : max_step a S754_nan = S754_nan.
Proof. destruct a as [[]|[]| |[] m e]; reflexivity. Qed.

Lemma fold_max_NaN (xs : list number) : fold_left max_step xs S754_nan = S754_nan.
Proof. induction xs as [|x xs IH]; [reflexivity | exact IH]. Qed.

(** A [NaN] among the arguments makes [Math.max] return [NaN]. *)
Lemma fold_max_has_NaN (xs : list number) (a : number) :
  Exists (fun x => isNaN x = true) xs -> fold_left max_step xs a = S754_nan.
Proof.
  intros H. revert a. induction H as [x xs Hx|x xs _ IH]; intros a.
  - destruct x; try discriminate. cbn [fold_left].
    rewrite max_step_NaN_r. apply fold_max_NaN.
  - cbn [fold_left]. apply IH.
Qed.

Lemma Math_max_has_NaN (xs : list number) :
  Exists (fun x => isNaN x = true) xs -> Math_max xs = S754_nan.
Proof. apply fold_max_has_NaN. Qed.

(** Without [NaN], [Math.max] returns an upper bound of its arguments that
    is one of them (or the start value). *)
Lemma fold_max_spec (xs : list number) (a : number) :
  isNaN a = false -> Forall (fun x => isNaN x = false) xs ->
  let m := fold_left max_step xs a in
  isNaN m = false /\ leb a m = true /\ Forall (fun x => leb x m = true) xs /\
  (m = a \/ In m xs).
Proof.
  intros Ha Hxs. revert a Ha. induction Hxs as [|x xs Hx _ IH]; intros a Ha; cbv zeta.
  - cbn. auto using leb_refl.
  - cbn [fold_left].
    destruct (max_step_spec a x Ha Hx) as (Hn & Hle1 & Hle2 & Hor).
    destruct (IH _ Hn) as (Hn' & Hle' & Hall & Hin).
    repeat split; auto.
    + eapply leb_trans; eauto.
    + constructor; [eapply leb_trans; eauto | assumption].
    + destruct Hin as [->|Hin]; [|right; now right].
      destruct Hor as [->| ->]; [now left | right; now left].
Qed.

(** [Math.max(...ds, 1)] for distances without [NaN]: at least 1, at least
    every distance, and one of these numbers. *)
Lemma Math_max_floor_one (ds : list number) :
  Forall (fun d => isNaN d = false) ds ->
  let m := Math_max (ds ++ [one]) in
  leb one m = true /\ Forall (fun d => leb d m = true) ds /\ In m (ds ++ [one]).
Proof.
  intros Hds. cbv zeta. unfold Math_max.
  assert (Hall : Forall (fun x => isNaN x = false) (ds ++ [one]))
    by (apply Forall_app; split; [assumption | repeat constructor]).
  destruct (fold_max_spec (ds ++ [one]) neg_Infinity eq_refl Hall)
    as (Hn & _ & Hle & Hin). cbv zeta in *.
  apply Forall_app in Hle as [Hle1 Hle2]. inversion Hle2; subst.
  repeat split; auto.
  destruct Hin as [Hin|Hin]; [|assumption].
  rewrite Hin in *.
  match goal with H : leb one neg_Infinity = true |- _ => discriminate H end.
Qed.

(** ** calculateLandValues *)

Section ValuationProofs.

Context (T : Backend).

Lemma score_distance (mode : Mode) (k m : number) (rs : list CellValue) :
  map distance (map (score T mode k m) rs) = map distance rs.
Proof. induction rs as [|r rs IH]; [reflexivity | cbn; now rewrite IH]. Qed.

Lemma maxDistOf_scored (o : option number) (mode : Mode) (k m : number)
    (rs : list CellValue) :
  maxDistOf o (map (score T mode k m) rs) = maxDistOf o rs.
Proof. unfold maxDistOf. now rewrite score_distance. Qed.

(** The run behind a returned list: the measured records, scored with the
    divisor computed from them. *)
Lemma calculateLandValues_run (cells : list Feature) (road : Feature) (mode : Mode)
    (decayK o : option number) (results : list CellValue) :
  calculateLandValues T cells (Some road) mode decayK o = Ok results ->
  exists measured,
    mapM (measure T road) cells = Ok measured /\
    results = map (score T mode
                     (match decayK with Some k => k | None => defaultDecayK end)
                     (maxDistOf o measured)) measured.
Proof.
  unfold calculateLandValues. destruct cells as [|c cells].
  - intros H. inversion H; subst. exists []. split; reflexivity.
  - intros H. apply bind_Ok in H as (measured & Hm & H). inversion H; subst.
    exists measured. split; [assumption | reflexivity].
Qed.

Lemma scored_values (mode : Mode) (k m : number) (rs : list CellValue) :
  Forall (fun r => value r = valueOf T mode k m (distance r))
         (map (score T mode k m) rs).
Proof. induction rs as [|r rs IH]; constructor; [reflexivity | exact IH]. Qed.

(** C1, as the code has it.  The divisor is [maxDistanceOverride] when that
    is a truthy number (not [0], [-0] or [NaN]); when it is absent or falsy
    the divisor is [Math.max(...distances, 1)], which for distances without
    [NaN] is at least 1, at least every distance and one of these numbers.
    In linear mode every returned value is
    [Math.max(0, 1 - distance / maxDist)]. *)
Theorem linear_values_and_divisor (cells : list Feature) (road : Feature)
    (decayK maxDistanceOverride : option number) (results : list CellValue) :
  calculateLandValues T cells (Some road) linear decayK maxDistanceOverride = Ok results ->
  let maxDist := maxDistOf maxDistanceOverride results in
  (forall v, maxDistanceOverride = Some v -> truthy v = true -> maxDist = v) /\
  (maxDistanceOverride = None \/
   (exists v, maxDistanceOverride = Some v /\ truthy v = false) ->
   maxDist = Math_max (map distance results ++ [one])) /\
  (Forall (fun r => isNaN (distance r) = false) results ->
   leb one (Math_max (map distance results ++ [one])) = true /\
   Forall (fun r => leb (distance r) (Math_max (map distance results ++ [one])) = true)
          results /\
   In (Math_max (map distance results ++ [one])) (map distance results ++ [one])) /\
  Forall (fun r => value r = Math_max [zero; sub one (div (distance r) maxDist)])
         results.
Proof.
  intros H. cbv zeta.
  destruct (calculateLandValues_run _ _ _ _ _ _ H) as (measured & _ & ->).
  rewrite maxDistOf_scored, score_distance.
  split; [|split; [|split]].
  - intros v -> Hv. unfold maxDistOf, js_or. now rewrite Hv.
  - intros [->|(v & -> & Hv)]; unfold maxDistOf, js_or; [|rewrite Hv]; reflexivity.
  - intros Hnan. rewrite Forall_map in Hnan.
    pose proof (Math_max_floor_one (map distance measured)) as Hm.
    rewrite Forall_map in Hm. destruct (Hm Hnan) as (H1 & H2 & H3).
    rewrite Forall_map in H2. rewrite Forall_map. auto.
  - apply (scored_values linear).
Qed.


End ValuationProofs.

(** *** The valuation on concrete cells *)

(** An override of [0] is supplied and not null, and is not the divisor:
    the values are those of the divisor 10, the greatest distance. *)
Example linear_override_zero :
  calculateLandValues planar nearCells (Some roadWest) linear None (Some zero)
  = Ok nearValues /\
  map distance nearValues = [num_of_Z 5; num_of_Z 10] /\
  map value nearValues = [div one (num_of_Z 2); zero] /\
  maxDistOf (Some zero) nearValues = num_of_Z 10.
Proof. vm_compute. repeat split. Qed.

(** C1 as stated does not hold: a supplied override need not be the
    divisor. *)
Lemma override_not_always_divisor :
  ~ (forall (T : Backend) (cells : list Feature) (road : Feature)
            (decayK : option number) (v : number) (results : list CellValue),
       calculateLandValues T cells (Some road) linear decayK (Some v) = Ok results ->
       Forall (fun r => value r = Math_max [zero; sub one (div (distance r) v)])
              results).
Proof.
  intros H.
  specialize (H planar nearCells roadWest None zero nearValues
                (proj1 linear_override_zero)).
  inversion H as [|r rs Hr _]; subst. vm_compute in Hr. discriminate.
Qed.

(** The two cells with an override of [0]. *)
Lemma linear_values_and_divisor_witness :
  calculateLandValues planar nearCells (Some roadWest) linear None (Some zero)
  = Ok nearValues /\
  maxDistOf (Some zero) nearValues = Math_max (map distance nearValues ++ [one]) /\
  leb one (Math_max (map distance nearValues ++ [one])) = true /\
  Forall (fun r => value r
                   = Math_max [zero;
                               sub one (div (distance r)
                                            (maxDistOf (Some zero) nearValues))])
         nearValues.
Proof.
  pose proof (linear_values_and_divisor planar nearCells roadWest None (Some zero)
                nearValues (proj1 linear_override_zero)) as H.
  cbv zeta in H. destruct H as (_ & Hfall & Hfloor & Hvalues).
  assert (Hnan : Forall (fun r => isNaN (distance r) = false) nearValues)
    by (repeat constructor).
  exact (conj (proj1 linear_override_zero)
           (conj (Hfall (or_intror (ex_intro _ zero (conj eq_refl eq_refl))))
              (conj (proj1 (Hfloor Hnan)) Hvalues))).
Defined.

(** The neighbouring distances give the same double when multiplied by
    [-0.005], whatever [Math.exp] does with it. *)
Lemma close_products_collide :
  ltb d100a d100b = true /\
  mul (neg defaultDecayK) d100a = mul (neg defaultDecayK) d100b.
Proof. vm_compute. split; reflexivity. Qed.

Lemma exponential_collision (T : Backend) (maxDist : number) :
  valueOf T exponential defaultDecayK maxDist d100a
  = valueOf T exponential defaultDecayK maxDist d100b.
Proof. cbn [valueOf]. now rewrite (proj2 close_products_collide). Qed.

(** So the farther of the two never gets the strictly smaller value, with
    any implementation of [Math.exp]. *)
Lemma exponential_never_strict (T : Backend) (maxDist : number) :
  ltb (valueOf T exponential defaultDecayK maxDist d100b)
      (valueOf T exponential defaultDecayK maxDist d100a) = false.
Proof. rewrite exponential_collision. apply ltb_irrefl. Qed.




(** * Further properties of the code *)

Lemma SFeqb_refl (a : number) : isNaN a = false -> SFeqb a a = true.
Proof.
  intros H. unfold SFeqb. rewrite SFcompare_rank.
  destruct (rank a) as [[[x y] z]|] eqn:E.
  - unfold lex3. rewrite !Z.compare_refl. reflexivity.
  - apply rank_isNaN in H as [x Hx]. congruence.
Qed.


Lemma mapM_total {A B : Type} (f : A -> result B) (xs : list A) :
  Forall (fun x => exists y, f x = Ok y) xs -> exists ys, mapM f xs = Ok ys.
Proof.
  induction 1 as [|x xs (y & Hy) _ (ys & Hys)]; [exists []; reflexivity|].
  exists (y :: ys). cbn. now rewrite Hy, Hys.
Qed.

(** ** normalizePolygon *)
Section NormalizeMore.
Context (T : Backend).

Lemma normalize_scan_member (parts : list (list (list Position)))
    (st : number * option (list (list Position))) :
  forEach (normalizeStep T) parts (num_of_Z (-1), None) = Ok st ->
  match snd st with Some best => In best parts | None => True end.
Proof.
  apply (forEach_invariant
           (fun st => match snd st with Some b => In b parts | None => True end));
    [|exact I].
  intros s x s' Hx Hs Hstep. unfold normalizeStep in Hstep.
  apply bind_Ok in Hstep as (a & _ & Hstep).
  destruct (gtb a (fst s)); inversion Hstep; subst; [exact Hx | exact Hs].
Qed.

(** X1.  Whatever [normalizePolygon] returns besides null is a Polygon
    feature, never a MultiPolygon: the input itself when that is a
    Polygon, and for a MultiPolygon the Polygon of one of its parts,
    built anew, without the properties of the input. *)
Theorem normalize_result_polygon (p : option Feature) (r : Feature) :
  normalizePolygon T p = Ok (Some r) ->
  exists f,
    p = Some f /\
    ((exists c, geometry f = Some (Polygon c) /\ r = f) \/
     (exists parts best,
        geometry f = Some (MultiPolygon parts) /\ In best parts /\
        r = mkFeature (Some (Polygon best)) [])).
Proof.
  unfold normalizePolygon. intros H.
  destruct p as [f|]; [|discriminate]. exists f. split; [reflexivity|].
  destruct (geometry f) as [[c|c|c|c]|] eqn:Hgeo; try discriminate.
  - left. inversion H; subst. eauto.
  - right. apply bind_Ok in H as (st & Hrun & H).
    apply normalize_scan_member in Hrun.
    destruct (snd st) as [best|]; [|discriminate].
    apply bind_Ok in H as (q & Hq & H). inversion H; subst.
    apply polygon_Ok in Hq. eauto.
Qed.

(** X2.  A part is taken only when its area is above the start value
    [-1], which a [NaN] area is not: a MultiPolygon all of whose parts
    have such an area normalizes to null, although it has parts. *)
Theorem normalize_null_without_positive_area (f : Feature)
    (parts : list (list (list Position))) :
  geometry f = Some (MultiPolygon parts) ->
  Forall (fun p => exists a, partArea T p = Ok a /\ gtb a (num_of_Z (-1)) = false)
         parts ->
  normalizePolygon T (Some f) = Ok None.
Proof.
  intros Hgeo Hall. unfold normalizePolygon. rewrite Hgeo.
  assert (Hrun : forEach (normalizeStep T) parts (num_of_Z (-1), None)
                 = Ok (num_of_Z (-1), None)).
  { clear Hgeo. induction Hall as [|p ps (a & Ha & Hgt) _ IH]; [reflexivity|].
    rewrite forEach_cons. unfold normalizeStep at 1. rewrite Ha. cbn [bind fst].
    rewrite Hgt. exact IH. }
  rewrite Hrun. reflexivity.
Qed.

End NormalizeMore.

(** ** googlePathToGeoJSON *)

Section PathProofs.
Context (T : Backend).

Lemma googlePath_run (path : list LatLngLiteral) (f : Feature) :
  googlePathToGeoJSON T path = Ok f ->
  exists p0 rest ring,
    path = p0 :: rest /\ (3 <= List.length path)%nat /\
    f = mkFeature (Some (Polygon [ring])) [] /\
    let first := [lng p0; lat p0] in
    let all := map (fun p => [lng p; lat p]) path in
    let final := last all first in
    (strictNe (lng p0) (nth 0 final zero) || strictNe (lat p0) (nth 1 final zero) = true /\
     ring = all ++ [first]) \/
    (strictNe (lng p0) (nth 0 final zero) = false /\
     strictNe (lat p0) (nth 1 final zero) = false /\ ring = all).
Proof.
  unfold googlePathToGeoJSON. intros H.
  destruct (List.length path <? 3)%nat eqn:Hlen; [discriminate|].
  apply Nat.ltb_ge in Hlen.
  destruct path as [|p0 rest]; [cbn in Hlen; lia|].
  exists p0, rest. cbn [map] in *. cbv zeta. cbn [nth] in *.
  match type of H with (if ?c then _ else _) = _ => destruct c eqn:Hc end;
    apply polygon_Ok in H; eexists; (split; [reflexivity|]); (split; [exact Hlen|]);
    (split; [exact H|]).
  - left. split; reflexivity.
  - right. apply orb_false_iff in Hc as [Hx Hy]. auto.
Qed.


Lemma map_toPathPoint (path : list LatLngLiteral) :
  map toPathPoint (map (fun p => [lng p; lat p]) path) = map ofLatLng path.
Proof. rewrite map_map. apply map_ext. intros p. reflexivity. Qed.

Lemma map_toPathPoint_closed (path : list LatLngLiteral) (p0 : LatLngLiteral) :
  map toPathPoint (map (fun p => [lng p; lat p]) path ++ [[lng p0; lat p0]])
  = map ofLatLng (path ++ [p0]).
Proof. rewrite <- map_toPathPoint, !map_app. reflexivity. Qed.


Lemma ofLatLng_inj (p q : LatLngLiteral) : ofLatLng p = ofLatLng q -> p = q.
Proof. destruct p, q. unfold ofLatLng; cbn. intros H; inversion H; reflexivity. Qed.

Lemma map_ofLatLng_inj (xs ys : list LatLngLiteral) :
  map ofLatLng xs = map ofLatLng ys -> xs = ys.
Proof.
  revert ys. induction xs as [|x xs IH]; intros [|y ys] H; try discriminate; auto.
  cbn [map] in H. injection H as H1 H2 H3.
  f_equal; [destruct x, y; cbn in *; congruence | now apply IH].
Qed.

Lemma strictNe_same (a : number) : isNaN a = false -> strictNe a a = false.
Proof. intros H. unfold strictNe. now rewrite SFeqb_refl. Qed.

(** X5.  Closing is idempotent for a path whose first point holds no
    [NaN]: the path read back from the polygon gives the same polygon, no
    point is added a second time. *)
Theorem googlePath_closed_again (path path' : list LatLngLiteral) (f : Feature)
    (first : LatLngLiteral) :
  googlePathToGeoJSON T path = Ok f ->
  hd_error path = Some first ->
  isNaN (lng first) = false -> isNaN (lat first) = false ->
  polygonPathOf f = Ok (Some (map ofLatLng path')) ->
  googlePathToGeoJSON T path' = Ok f.
Proof.
  intros H Hhd Hx Hy Hshown. pose proof H as Hrun.
  apply googlePath_run in H as (p0 & rest & ring & -> & Hlen & -> & H).
  cbn in Hhd. inversion Hhd; subst first. cbv zeta in H.
  unfold polygonPathOf in Hshown. cbn [geometry nth_error] in Hshown.
  inversion Hshown as [Hmap]. clear Hshown.
  destruct H as [[Hne ->]|(Hx' & Hy' & ->)].
  - rewrite map_toPathPoint_closed in Hmap. apply map_ofLatLng_inj in Hmap.
    subst path'. unfold googlePathToGeoJSON.
    replace (List.length ((p0 :: rest) ++ [p0]) <? 3)%nat with false
      by (symmetry; apply Nat.ltb_ge; rewrite length_app; lia).
    cbn [app map]. rewrite map_app. cbn [map]. rewrite app_comm_cons, last_last.
    cbn [nth]. rewrite !strictNe_same by assumption. cbn [orb].
    unfold googlePathToGeoJSON in Hrun.
    replace (List.length (p0 :: rest) <? 3)%nat with false in Hrun
      by (symmetry; apply Nat.ltb_ge; exact Hlen).
    cbn [map nth] in Hrun, Hne. rewrite Hne in Hrun. rewrite <- app_comm_cons. exact Hrun.
  - rewrite map_toPathPoint in Hmap. apply map_ofLatLng_inj in Hmap. subst path'.
    exact Hrun.
Qed.

End PathProofs.

(** ** findClosestRoadAndConnection *)

Section ClosestMore.
Context (T : Backend).

Lemma boundaryLines_prefix (polys : list (list (list Position)))
    (acc out : list Feature) :
  forEach (fun lines poly =>
             l <- lineString T (nth_error poly 0) ;; Ok (lines ++ [l]))
          polys acc = Ok out ->
  exists more, out = acc ++ more.
Proof.
  revert acc. induction polys as [|p polys IH]; intros acc H.
  - inversion H; subst. exists []. now rewrite app_nil_r.
  - rewrite forEach_cons in H. apply bind_Ok in H as (acc1 & H1 & H2).
    apply bind_Ok in H1 as (l & _ & H1). inversion H1; subst.
    destruct (IH _ H2) as (more & ->). exists (l :: more).
    now rewrite <- app_assoc.
Qed.

(** X6.  Of a MultiPolygon boundary only ring 0 of the first part is
    measured: when a line is built for every part, the search gives what
    it gives for the Polygon of the first part alone. *)
Theorem closest_multi_uses_first_part (f : Feature)
    (part : list (list Position)) (parts : list (list (list Position)))
    (lines : list Feature) (props : list (string * JValue))
    (roads : option (list Feature)) :
  geometry f = Some (MultiPolygon (part :: parts)) ->
  boundaryLinesOf T f = Ok lines ->
  findClosestRoadAndConnection T (Some f) roads
  = findClosestRoadAndConnection T (Some (mkFeature (Some (Polygon part)) props)) roads.
Proof.
  intros Hgeo Hlines. unfold findClosestRoadAndConnection.
  destruct roads as [[|r rs]|]; try reflexivity.
  rewrite Hlines. unfold boundaryLinesOf in *. rewrite Hgeo in Hlines.
  cbn [geometry]. rewrite forEach_cons in Hlines.
  apply bind_Ok in Hlines as (acc & H1 & H2).
  apply bind_Ok in H1 as (l & Hl & H1). inversion H1; subst acc.
  apply boundaryLines_prefix in H2 as (more & ->).
  rewrite Hl. reflexivity.
Qed.

(** X7.  With the boundary line built and every road's candidate
    computed, the search returns null exactly when no road has a
    candidate below [Infinity]. *)
Theorem closest_null_iff_no_candidate (pf : Feature) (r : Feature)
    (roads : list Feature) (boundary : Feature) (more : list Feature)
    (cands : list (number * list Position)) :
  boundaryLinesOf T pf = Ok (boundary :: more) ->
  mapM (candidate T boundary) (r :: roads) = Ok cands ->
  (findClosestRoadAndConnection T (Some pf) (Some (r :: roads)) = Ok None <->
   Forall (fun c => ltb (fst c) Infinity = false) cands).
Proof.
  intros Hb Hc. split; [|now apply (closest_none_without_sample T pf r roads boundary more)].
  intros Hnone.
  assert (Hnan : Forall (fun c => isNaN (fst c) = false) cands)
    by (eapply mapM_Forall; [|exact Hc]; intros; eapply candidate_not_NaN; eauto).
  pose proof (chosen_all cands [] (Infinity, -1, []) Hnan) as Hsel.
  cbn [app List.length] in Hsel.
  destruct Hsel as [[_ Hall]|(i & c & Hi & Hst & Hlt & Hmin)].
  - left. split; [reflexivity | constructor].
  - exact Hall.
  - exfalso. unfold findClosestRoadAndConnection in Hnone. rewrite Hb in Hnone.
    cbn [bind] in Hnone. rewrite (roads_forEach_select _ _ _ _ Hc), Hst in Hnone.
    cbn [bind] in Hnone.
    replace (Z.of_nat i =? -1) with false in Hnone
      by (symmetry; apply Z.eqb_neq; lia).
    discriminate.
Qed.

End ClosestMore.

(** ** generateSubdivisionGrid *)

Section GridMore.
Context (T : Backend).

Lemma pushParts_app (parts : list (list (list Position))) (acc : list Feature) :
  pushParts T parts acc = acc ++ pushParts T parts [].
Proof.
  revert acc. induction parts as [|p parts IH]; intros acc; cbn [pushParts].
  - now rewrite app_nil_r.
  - destruct (polygon T p) as [q|e]; [|now rewrite app_nil_r].
    rewrite (IH (acc ++ [q])), (IH ([] ++ [q])). now rewrite <- app_assoc.
Qed.

Lemma clipCell_app (pf tile : Feature) (acc : list Feature) :
  clipCell T pf tile acc = acc ++ clipCell T pf tile [].
Proof.
  unfold clipCell.
  destruct (turfIntersect T (featureCollection [tile; pf])) as [[clipped|]|e];
    try now rewrite app_nil_r.
  destruct (geometry clipped) as [[c|c|c|c]|]; try now rewrite app_nil_r.
  - reflexivity.
  - apply pushParts_app.
Qed.

Lemma grid_forEach (pf : Feature) (grid : list Feature) (flags : list bool)
    (acc : list Feature) :
  mapM (fun tile => turfBooleanIntersects T tile pf) grid = Ok flags ->
  forEach (gridStep T pf) grid acc
  = Ok (acc ++ flat_map (tileCells T pf) (combine grid flags)).
Proof.
  revert flags acc. induction grid as [|tile grid IH]; intros flags acc H.
  - inversion H; subst. cbn. now rewrite app_nil_r.
  - cbn [mapM] in H. apply bind_Ok in H as (b & Hb & H).
    apply bind_Ok in H as (bs & Hbs & H). inversion H; subst.
    rewrite forEach_cons. unfold gridStep at 1. rewrite Hb. cbn [bind combine flat_map].
    unfold tileCells at 1. cbn [fst snd]. destruct b; cbn [bind].
    + rewrite (IH _ _ Hbs), clipCell_app. now rewrite <- app_assoc.
    + rewrite (IH _ _ Hbs). reflexivity.
Qed.

(** X8.  The grid is put together tile by tile, in the order of the
    tiling: when the bounding box, the tiling and every quick check
    return, the grid is the concatenation of what the [try] block of each
    intersecting tile adds, and a tile contributes the same cells
    whatever was collected before it. *)
Theorem grid_tile_by_tile (pf : Feature) (cellSizeMeters : number) (bbox : BBox)
    (grid : list Feature) (flags : list bool) :
  turfBbox T pf = Ok bbox ->
  turfSquareGrid T bbox (div cellSizeMeters (num_of_Z 1000)) kilometers = Ok grid ->
  mapM (fun tile => turfBooleanIntersects T tile pf) grid = Ok flags ->
  generateSubdivisionGrid T (Some pf) cellSizeMeters
  = Ok (flat_map (tileCells T pf) (combine grid flags)).
Proof.
  intros Hb Hg Hf. unfold generateSubdivisionGrid. rewrite Hb. cbn [bind].
  rewrite Hg. cbn [bind]. now rewrite (grid_forEach _ _ _ _ Hf).
Qed.

(** X9.  A failing clip never fails the grid: the grid returns exactly
    when the bounding box, the tiling and the quick check of every tile
    return, whatever [turfIntersect] and the [polygon] helper do. *)
Theorem grid_returns_iff (pf : Feature) (cellSizeMeters : number) :
  (exists cells, generateSubdivisionGrid T (Some pf) cellSizeMeters = Ok cells) <->
  exists bbox grid,
    turfBbox T pf = Ok bbox /\
    turfSquareGrid T bbox (div cellSizeMeters (num_of_Z 1000)) kilometers = Ok grid /\
    Forall (fun tile => exists b, turfBooleanIntersects T tile pf = Ok b) grid.
Proof.
  split.
  - intros (cells & H). unfold generateSubdivisionGrid in H.
    apply bind_Ok in H as (bbox & Hb & H). apply bind_Ok in H as (grid & Hg & H).
    exists bbox, grid. repeat split; auto.
    revert H. apply (forEach_forall (fun tile _ =>
                       exists b, turfBooleanIntersects T tile pf = Ok b)).
    + intros s x s' Hs. unfold gridStep in Hs. apply bind_Ok in Hs as (b & Hb' & _).
      eauto.
    + auto.
  - intros (bbox & grid & Hb & Hg & Hall).
    apply mapM_total in Hall as (flags & Hf).
    eexists. eapply grid_tile_by_tile; eauto.
Qed.

End GridMore.

(** ** calculateLandValues *)

Section ValuationMore.
Context (T : Backend).

Lemma mapM_measure_features (road : Feature) (cells : list Feature)
    (measured : list CellValue) :
  mapM (measure T road) cells = Ok measured -> map feature measured = cells.
Proof.
  revert measured. induction cells as [|c cells IH]; intros measured H.
  - inversion H; reflexivity.
  - cbn in H. apply bind_Ok in H as (y & Hy & H). apply bind_Ok in H as (ys & Hys & H).
    inversion H; subst. cbn. rewrite (IH _ Hys). f_equal.
    unfold measure in Hy. apply bind_Ok in Hy as (c0 & _ & Hy).
    apply bind_Ok in Hy as (d & _ & Hy). inversion Hy; reflexivity.
Qed.

(** X10.  The valuation returns one record per cell, in the order of the
    cells: each holds its cell, the distance from the cell's centroid to
    the road, and the colour of [1 - value]. *)
Theorem valuation_one_record_per_cell (cells : list Feature) (road : Feature)
    (mode : Mode) (decayK o : option number) (results : list CellValue) :
  calculateLandValues T cells (Some road) mode decayK o = Ok results ->
  map feature results = cells /\
  Forall (fun r => exists center,
            turfCentroid T (feature r) = Ok center /\
            turfPointToLineDistance T center road meters = Ok (distance r) /\
            color r = colorScale T (sub one (value r))) results.
Proof.
  intros H. apply calculateLandValues_run in H as (measured & Hm & ->). split.
  - rewrite map_map. cbn [score feature]. now apply mapM_measure_features in Hm.
  - apply Forall_map.
    eapply Forall_impl; [|eapply (mapM_Forall _ (fun r => exists center,
        turfCentroid T (feature r) = Ok center /\
        turfPointToLineDistance T center road meters = Ok (distance r))); [|exact Hm]].
    + intros r (center & H1 & H2). exists center. cbn. auto.
    + intros x y Hy. unfold measure in Hy. apply bind_Ok in Hy as (c0 & Hc0 & Hy).
      apply bind_Ok in Hy as (d & Hd & Hy). inversion Hy; subst. cbn. eauto.
Qed.

Lemma Math_max_zero (x : number) :
  let v := Math_max [zero; x] in
  (isNaN x = true /\ isNaN v = true) \/
  (isNaN x = false /\ leb zero v = true /\ leb x v = true /\ (v = zero \/ v = x)).
Proof.
  cbv zeta. destruct (isNaN x) eqn:Hx.
  - left. split; [reflexivity|]. rewrite Math_max_has_NaN; [reflexivity|].
    right. left. exact Hx.
  - right. split; [reflexivity|]. unfold Math_max.
    destruct (fold_max_spec [zero; x] neg_Infinity eq_refl) as (Hn & _ & Hle & Hin).
    + repeat constructor. exact Hx.
    + cbv zeta in *. inversion Hle as [|? ? H0 Hle']; subst.
      inversion Hle' as [|? ? H1 _]; subst. repeat split; auto.
      destruct Hin as [Hin|[Hin|[Hin|[]]]]; auto.
      rewrite Hin in H0. discriminate.
Qed.

(** X11.  Linear values are never negative: a value is [NaN] when
    [1 - distance / maxDist] is, and otherwise it is at least 0, at least
    [1 - distance / maxDist] and one of the two. *)
Theorem linear_values_not_negative (cells : list Feature) (road : Feature)
    (decayK o : option number) (results : list CellValue) :
  calculateLandValues T cells (Some road) linear decayK o = Ok results ->
  let maxDist := maxDistOf o results in
  Forall (fun r =>
            let x := sub one (div (distance r) maxDist) in
            (isNaN x = true /\ isNaN (value r) = true) \/
            (isNaN x = false /\ leb zero (value r) = true /\ leb x (value r) = true /\
             (value r = zero \/ value r = x))) results.
Proof.
  intros H. apply calculateLandValues_run in H as (measured & _ & ->). cbv zeta.
  rewrite maxDistOf_scored.
  eapply Forall_impl; [|apply (scored_values T linear)].
  intros r Hr. cbn [valueOf] in Hr. rewrite Hr. apply Math_max_zero.
Qed.



End ValuationMore.

(** ** The page: selecting a boundary *)

Section PageProofs.
Context (T : Backend).

(** X13.  After [selectResult] went through, the boundary in the state
    is the normalized feature, a Polygon with a ring 0; its path is set
    and is ring 0, read as [{ lat: c[1], lng: c[0] }]; the area is the one
    the area primitive gives for it.  The MultiPolygon branch of
    [updateBoundaryState] is not reached. *)
Theorem selected_boundary_has_path (g : option Feature) (st : BoundaryState) :
  selectResult T g = Ok st ->
  exists ring rings,
    geometry (boundaryGeoJson st) = Some (Polygon (ring :: rings)) /\
    polygonPath st = Some (map toPathPoint ring) /\
    turfArea T (boundaryGeoJson st) = Ok (areaSqM st) /\
    normalizePolygon T g = Ok (Some (boundaryGeoJson st)).
Proof.
  unfold selectResult. intros H. destruct g as [f|]; [|discriminate].
  apply bind_Ok in H as (n & Hn & H). destruct n as [n|]; [|discriminate].
  unfold updateBoundaryState in H.
  apply bind_Ok in H as (area & Harea & H). apply bind_Ok in H as (path & Hpath & H).
  inversion H; subst; cbn. cbn in Harea.
  assert (Hpoly : exists c, geometry n = Some (Polygon c)).
  { apply normalize_result_polygon in Hn as (f' & _ & [(c & Hc & ->)|(ps & b & _ & _ & ->)]);
      [exists c; exact Hc | exists b; reflexivity]. }
  destruct Hpoly as (c & Hc). unfold polygonPathOf in Hpath. rewrite Hc in Hpath.
  destruct c as [|ring rings]; [discriminate|]. inversion Hpath; subst.
  exists ring, rings. auto.
Qed.

(** X14.  The area shown for a selected MultiPolygon whose parts all
    have an area is the area of the part that was kept, which no part
    exceeds: the largest part's area, not the sum of the parts. *)
Theorem selected_area_is_largest (f : Feature) (parts : list (list (list Position)))
    (st : BoundaryState) :
  geometry f = Some (MultiPolygon parts) ->
  Forall (areaOk T) parts ->
  selectResult T (Some f) = Ok st ->
  exists best,
    In best parts /\
    boundaryGeoJson st = mkFeature (Some (Polygon best)) [] /\
    partArea T best = Ok (areaSqM st) /\
    forall p a, In p parts -> partArea T p = Ok a -> leb a (areaSqM st) = true.
Proof.
  intros Hgeo Hok H. unfold selectResult, normalizePolygon in H. rewrite Hgeo in H.
  destruct (scan_all T parts [] (num_of_Z (-1), None)) as (s & Hrun & Hinv);
    [left; split; reflexivity | assumption |].
  rewrite Hrun in H. cbn [bind app] in *.
  destruct Hinv as [[-> ->]|(i & best & a & Hi & Hbest & -> & Hall)]; [discriminate|].
  cbn [snd] in H. rewrite (partArea_polygon _ _ _ Hbest) in H. cbn [bind] in H.
  unfold updateBoundaryState in H.
  apply bind_Ok in H as (area & Harea & H). apply bind_Ok in H as (path & _ & H).
  inversion H; subst; cbn [boundaryGeoJson areaSqM].
  assert (area = a).
  { unfold partArea in Hbest. rewrite (partArea_polygon _ _ _ Hbest) in Hbest.
    cbn in Hbest, Harea. congruence. }
  subst area. exists best. repeat split; eauto using nth_error_In.
  intros p a' Hp Ha'. apply In_nth_error in Hp as (j & Hj).
  now apply (Hall _ _ _ Hj Ha').
Qed.

End PageProofs.

(** ** The API routes *)

Section RouteProofs.

Context (fetch : FetchRequest -> result FetchResponse).
Context (osmtogeojson : Json -> result Json).
Context (numberToString : number -> string).
Context (urlencode : string -> string).

Lemma missing_false (v : option string) :
  missing v = false <-> exists s, v = Some s /\ s <> "".
Proof.
  destruct v as [s|]; cbn.
  - rewrite String.eqb_neq. split; [eauto|]. intros (s' & H & Hs). congruence.
  - split; [discriminate | intros (s & H & _); discriminate].
Qed.

Lemma reply_status (outcome : result Json) :
  status (reply outcome) = 200 \/ status (reply outcome) = 500.
Proof. destruct outcome; cbn; auto. Qed.

(** X17.  The boundary route answers 400 exactly when [osm_id] or [osm_type] is
    missing or empty or [osm_type] is neither [relation] nor [way], and
    then sends nothing; otherwise it sends one POST to Overpass, with the
    identifier spliced into the query as it came, and answers 200 or
    500. *)
Theorem boundary_route_requests (searchParams : list (string * string)) :
  let r := boundaryGET fetch osmtogeojson searchParams in
  (status (fst r) = 400 <-> ~ boundaryQueryOk searchParams) /\
  (snd r = [] <-> status (fst r) = 400) /\
  (status (fst r) = 400 \/
   exists id type short,
     searchGet searchParams "osm_id" = Some id /\
     searchGet searchParams "osm_type" = Some type /\
     ((type = "relation" /\ short = "rel") \/ (type = "way" /\ short = "way")) /\
     snd r = [mkFetch OVERPASS_API_URL "POST"
                (Some ("[out:json]; " ++ short ++ "(" ++ id ++ "); out geom;")%string) []] /\
     fst r = reply (overpassExchange fetch osmtogeojson
                      ("[out:json]; " ++ short ++ "(" ++ id ++ "); out geom;")%string) /\
     (status (fst r) = 200 \/ status (fst r) = 500)).
Proof.
  cbv zeta. unfold boundaryGET, boundaryQueryOk.
  destruct (missing (searchGet searchParams "osm_id")) eqn:Hid; cbn [orb].
  { cbn. repeat split; auto.
    intros _ (id & type & H1 & H2 & _).
    assert (missing (searchGet searchParams "osm_id") = false)
      by (apply missing_false; eauto).
    congruence. }
  destruct (missing (searchGet searchParams "osm_type")) eqn:Hty.
  { cbn. repeat split; auto.
    intros _ (id & type & _ & _ & H1 & [H2|H2]);
      rewrite H1 in Hty; subst type; discriminate. }
  apply (proj1 (missing_false _)) in Hid as (id & Hid & Hne).
  apply (proj1 (missing_false _)) in Hty as (type & Hty & Hne').
  rewrite Hid, Hty.
  destruct (String.eqb type "relation") eqn:E1;
    [|destruct (String.eqb type "way") eqn:E2].
  - apply String.eqb_eq in E1. subst type. cbn [fst snd].
    pose proof (reply_status (overpassExchange fetch osmtogeojson
                  ("[out:json]; " ++ "rel" ++ "(" ++ id ++ "); out geom;")%string)) as Hs.
    repeat split.
    + intros H. destruct Hs; congruence.
    + intros H. exfalso. apply H. exists id, "relation". auto.
    + discriminate.
    + intros H. destruct Hs; congruence.
    + right. exists id, "relation", "rel". auto 10.
  - apply String.eqb_eq in E2. subst type. cbn [fst snd].
    pose proof (reply_status (overpassExchange fetch osmtogeojson
                  ("[out:json]; " ++ "way" ++ "(" ++ id ++ "); out geom;")%string)) as Hs.
    repeat split.
    + intros H. destruct Hs; congruence.
    + intros H. exfalso. apply H. exists id, "way". auto.
    + discriminate.
    + intros H. destruct Hs; congruence.
    + right. exists id, "way", "way". auto 10.
  - cbn. apply String.eqb_neq in E1, E2. repeat split; auto.
    intros _ (id' & type' & _ & _ & H1 & [H2|H2]); congruence.
Qed.




(** What the roads route does with a parsed body other than [null]. *)
Lemma roadsPOST_body (body : Json) :
  body <> JNull ->
  roadsPOST fetch osmtogeojson numberToString (Ok body) =
  let bbox := prop body "bbox" in
  let types := prop body "types" in
  if negb (truthyValue bbox) || negb (isArray bbox)
     || negb (List.length (itemsOf bbox) =? 4)%nat
  then (mkResponse
          (ErrorPayload "Valid BBox [minX, minY, maxX, maxY] is required") 400, [])
  else if negb (truthyValue types) || negb (isArray types)
          || (List.length (itemsOf types) =? 0)%nat
  then (mkResponse (ErrorPayload "At least one road type is required") 400, [])
  else
    let query :=
      roadsQuery (join numberToString (itemsOf types) "|")
        (toStr numberToString (nth 1 (itemsOf bbox) JNull) ++ "," ++
         toStr numberToString (nth 0 (itemsOf bbox) JNull) ++ "," ++
         toStr numberToString (nth 3 (itemsOf bbox) JNull) ++ "," ++
         toStr numberToString (nth 2 (itemsOf bbox) JNull))%string in
    (reply (overpassExchange fetch osmtogeojson query),
     [mkFetch OVERPASS_API_URL "POST" (Some query) []]).
Proof. destruct body; intros H; [congruence | reflexivity ..]. Qed.


(** X16.  The search route answers 400 exactly when [q] is missing or empty,
    and then sends nothing; otherwise it sends one GET to Nominatim with
    the encoded query and the two headers, and answers 200 or 500. *)
Theorem search_route_requests (searchParams : list (string * string)) :
  let r := searchGET fetch urlencode searchParams in
  (status (fst r) = 400 <->
   ~ exists q, searchGet searchParams "q" = Some q /\ q <> "") /\
  (snd r = [] <-> status (fst r) = 400) /\
  (forall request, In request (snd r) ->
     exists q,
       searchGet searchParams "q" = Some q /\ snd r = [request] /\
       fetch_method request = "GET" /\ fetch_body request = None /\
       fetch_url request
       = (NOMINATIM_BASE_URL ++ "?" ++
          searchParamsToString urlencode
            [("q", q); ("format", "json"); ("polygon_geojson", "1");
             ("addressdetails", "1"); ("limit", "5")])%string /\
       searchGet (fetch_headers request) "User-Agent" = Some "LandValueGradientApp/1.0") /\
  (status (fst r) = 200 \/ status (fst r) = 400 \/ status (fst r) = 500).
Proof.
  cbv zeta. unfold searchGET.
  destruct (missing (searchGet searchParams "q")) eqn:Hq.
  - cbn. repeat split; auto; try contradiction.
    intros _ (q & H1 & H2).
    assert (missing (searchGet searchParams "q") = false)
      by (apply missing_false; eauto).
    congruence.
  - apply (proj1 (missing_false _)) in Hq as (q & Hq & Hne). rewrite Hq.
    cbn [fst snd].
    match goal with |- context [reply ?o] => pose proof (reply_status o) as Hs end.
    repeat split.
    + intros H. destruct Hs; congruence.
    + intros H. exfalso. apply H. eauto.
    + discriminate.
    + intros H. destruct Hs; congruence.
    + intros request [<-|[]]. exists q. repeat split.
    + destruct Hs; auto.
Qed.

End RouteProofs.

(** ** The page: asking for roads *)

Section RoadsRequestProofs.

Context (T : Backend).
Context (turfBuffer : Feature -> number -> Units -> result (option Feature)).
Context (fetch : FetchRequest -> result FetchResponse).
Context (osmtogeojson : Json -> result Json).
Context (numberToString : number -> string).

Lemma join_strings (types : list string) (separator : string) :
  join numberToString (map JStr types) separator = String.concat separator types.
Proof.
  unfold join. rewrite map_map. f_equal.
  induction types as [|t ts IH]; [reflexivity | cbn [map]; f_equal; exact IH].
Qed.

(** X18.  What the page posts passes the route's checks but for the
    number of entries of the bounding box: for a body built by
    [handleFetchRoads], the roads route answers 400 exactly when the
    bounding box of the buffer does not have four entries.  A box
    [minX, minY, maxX, maxY] reaches Overpass as [minY,minX,maxY,maxX] in
    one query whose pattern is the enabled road types, in the order
    motorway, trunk, primary, secondary, joined by a bar. *)
Theorem page_roads_request (boundary : Feature) (bufferDistance : number)
    (roadTypes : RoadTypes) (body : Json) :
  roadsRequestBody T turfBuffer boundary bufferDistance roadTypes = Ok body ->
  let r := roadsPOST fetch osmtogeojson numberToString (Ok body) in
  let selectedTypes := map fst (filter snd (entries roadTypes)) in
  exists buffered bbox,
    turfBuffer boundary bufferDistance meters = Ok (Some buffered) /\
    turfBbox T buffered = Ok bbox /\
    selectedTypes <> [] /\
    (status (fst r) = 400 <-> List.length bbox <> 4%nat) /\
    (forall minX minY maxX maxY,
       bbox = [minX; minY; maxX; maxY] ->
       snd r = [mkFetch OVERPASS_API_URL "POST"
                  (Some (roadsQuery (String.concat "|" selectedTypes)
                           (toStr numberToString (jsonNumber minY) ++ "," ++
                            toStr numberToString (jsonNumber minX) ++ "," ++
                            toStr numberToString (jsonNumber maxY) ++ "," ++
                            toStr numberToString (jsonNumber maxX))%string)) []]).
Proof.
  cbv zeta. unfold roadsRequestBody, createBuffer, getBoundingBox.
  remember (map fst (filter snd (entries roadTypes))) as selected eqn:Esel.
  clear Esel. intros H.
  destruct (turfBuffer boundary bufferDistance meters) as [[buffered|]|e] eqn:Hbuf;
    try discriminate.
  destruct (geometry buffered); [|discriminate].
  apply bind_Ok in H as (bbox & Hbbox & H).
  destruct selected as [|t ts]; [discriminate|].
  cbn [List.length Nat.eqb] in H. inversion H; subst body. clear H.
  exists buffered, bbox.
  split; [reflexivity|]. split; [exact Hbbox|]. split; [discriminate|].
  rewrite roadsPOST_body by discriminate. cbv zeta.
  cbn [prop field String.eqb Ascii.eqb Bool.eqb andb truthyValue isArray itemsOf negb orb].
  rewrite !length_map.
  destruct (List.length bbox =? 4)%nat eqn:Hlen; cbn [negb].
  - apply Nat.eqb_eq in Hlen. cbn [List.length Nat.eqb fst snd]. split.
    + match goal with |- context [reply ?o] => destruct (reply_status o) as [Hs|Hs] end;
        rewrite Hs; (split; [discriminate | intros Hc; contradiction]).
    + intros minX minY maxX maxY ->.
      change (JStr t :: map JStr ts) with (map JStr (t :: ts)).
      rewrite join_strings. reflexivity.
  - apply Nat.eqb_neq in Hlen. cbn [fst snd status]. split.
    + split; [intros _; exact Hlen | reflexivity].
    + intros minX minY maxX maxY ->. exfalso. apply Hlen. reflexivity.
Qed.

End RoadsRequestProofs.

(** ** The further properties on concrete inputs *)

(** Of the three islands the normalization returns a Polygon. *)
Lemma normalize_result_polygon_witness :
  normalizePolygon planar (Some threeParts)
  = Ok (Some (polygonFeature [rect 10 0 12 5])) /\
  exists f,
    Some threeParts = Some f /\
    ((exists c, geometry f = Some (Polygon c) /\ polygonFeature [rect 10 0 12 5] = f) \/
     (exists parts best,
        geometry f = Some (MultiPolygon parts) /\ In best parts /\
        polygonFeature [rect 10 0 12 5] = mkFeature (Some (Polygon best)) [])).
Proof.
  exact (conj normalize_three_parts
           (normalize_result_polygon planar (Some threeParts) _ normalize_three_parts)).
Defined.

(** A part with a [NaN] coordinate has the area [NaN]. *)
Lemma normalize_null_without_positive_area_witness :
  geometry nanMulti = Some (MultiPolygon nanParts) /\
  Forall (fun p => exists a, partArea planar p = Ok a /\ gtb a (num_of_Z (-1)) = false)
         nanParts /\
  normalizePolygon planar (Some nanMulti) = Ok None.
Proof.
  assert (H1 : geometry nanMulti = Some (MultiPolygon nanParts)) by reflexivity.
  assert (H2 : Forall (fun p => exists a, partArea planar p = Ok a
                                          /\ gtb a (num_of_Z (-1)) = false) nanParts)
    by (repeat constructor; exists S754_nan; split; vm_compute; reflexivity).
  exact (conj H1 (conj H2
           (normalize_null_without_positive_area planar nanMulti nanParts H1 H2))).
Defined.

(** The triangle is closed by its first point. *)
Example googlePath_of_triangle :
  googlePathToGeoJSON planar triangle = Ok triangleFeature.
Proof. vm_compute. reflexivity. Qed.


Lemma googlePath_closed_again_witness :
  googlePathToGeoJSON planar triangle = Ok triangleFeature /\
  hd_error triangle = Some (mkLatLng (num_of_Z 0) (num_of_Z 0)) /\
  polygonPathOf triangleFeature = Ok (Some (map ofLatLng closedTriangle)) /\
  googlePathToGeoJSON planar closedTriangle = Ok triangleFeature.
Proof.
  assert (H1 : hd_error triangle = Some (mkLatLng (num_of_Z 0) (num_of_Z 0)))
    by reflexivity.
  assert (H2 : polygonPathOf triangleFeature = Ok (Some (map ofLatLng closedTriangle)))
    by (vm_compute; reflexivity).
  exact (conj googlePath_of_triangle (conj H1 (conj H2
           (googlePath_closed_again planar triangle closedTriangle triangleFeature
              (mkLatLng (num_of_Z 0) (num_of_Z 0))
              googlePath_of_triangle H1 eq_refl eq_refl H2)))).
Defined.

(** The second square is not measured. *)
Lemma closest_multi_uses_first_part_witness :
  geometry twoSquares = Some (MultiPolygon [[rect 0 0 1 1]; [rect 3 3 4 4]]) /\
  boundaryLinesOf planar twoSquares
  = Ok [unitSquareLine; lineFeature (rect 3 3 4 4)] /\
  findClosestRoadAndConnection planar (Some twoSquares) (Some threeRoads)
  = findClosestRoadAndConnection planar (Some unitSquare) (Some threeRoads).
Proof.
  assert (H1 : geometry twoSquares
               = Some (MultiPolygon [[rect 0 0 1 1]; [rect 3 3 4 4]])) by reflexivity.
  assert (H2 : boundaryLinesOf planar twoSquares
               = Ok [unitSquareLine; lineFeature (rect 3 3 4 4)])
    by (vm_compute; reflexivity).
  exact (conj H1 (conj H2
           (closest_multi_uses_first_part planar twoSquares [rect 0 0 1 1]
              [[rect 3 3 4 4]] _ [] (Some threeRoads) H1 H2))).
Defined.

(** A road without a vertex gives no sample, and the search gives null. *)
Lemma closest_null_iff_no_candidate_witness :
  boundaryLinesOf planar unitSquare = Ok [unitSquareLine] /\
  mapM (candidate planar unitSquareLine) [emptyRoad] = Ok emptyRoadCandidates /\
  (findClosestRoadAndConnection planar (Some unitSquare) (Some [emptyRoad]) = Ok None <->
   Forall (fun c => ltb (fst c) Infinity = false) emptyRoadCandidates).
Proof.
  assert (H1 : boundaryLinesOf planar unitSquare = Ok [unitSquareLine])
    by (vm_compute; reflexivity).
  assert (H2 : mapM (candidate planar unitSquareLine) [emptyRoad] = Ok emptyRoadCandidates)
    by (vm_compute; reflexivity).
  exact (conj H1 (conj H2
           (closest_null_iff_no_candidate planar unitSquare emptyRoad []
              unitSquareLine [] emptyRoadCandidates H1 H2))).
Defined.

(** Four tiles of side 2 over the two squares; two of them intersect. *)
Lemma grid_tile_by_tile_witness :
  turfBbox planar twoSquares = Ok twoSquaresBox /\
  turfSquareGrid planar twoSquaresBox (div (num_of_Z 2000) (num_of_Z 1000)) kilometers
  = Ok twoSquaresTiles /\
  mapM (fun tile => turfBooleanIntersects planar tile twoSquares) twoSquaresTiles
  = Ok twoSquaresFlags /\
  generateSubdivisionGrid planar (Some twoSquares) (num_of_Z 2000)
  = Ok (flat_map (tileCells planar twoSquares)
          (combine twoSquaresTiles twoSquaresFlags)).
Proof.
  assert (H1 : turfBbox planar twoSquares = Ok twoSquaresBox)
    by (vm_compute; reflexivity).
  assert (H2 : turfSquareGrid planar twoSquaresBox
                 (div (num_of_Z 2000) (num_of_Z 1000)) kilometers = Ok twoSquaresTiles)
    by (vm_compute; reflexivity).
  assert (H3 : mapM (fun tile => turfBooleanIntersects planar tile twoSquares)
                 twoSquaresTiles = Ok twoSquaresFlags)
    by (vm_compute; reflexivity).
  exact (conj H1 (conj H2 (conj H3
           (grid_tile_by_tile planar twoSquares (num_of_Z 2000) twoSquaresBox
              twoSquaresTiles twoSquaresFlags H1 H2 H3)))).
Defined.

(** The two cells east of the road. *)
Lemma valuation_one_record_per_cell_witness :
  calculateLandValues planar nearCells (Some roadWest) linear None (Some zero)
  = Ok nearValues /\
  map feature nearValues = nearCells /\
  Forall (fun r => exists center,
            turfCentroid planar (feature r) = Ok center /\
            turfPointToLineDistance planar center roadWest meters = Ok (distance r) /\
            color r = colorScale planar (sub one (value r))) nearValues.
Proof.
  exact (conj (proj1 linear_override_zero)
           (valuation_one_record_per_cell planar nearCells roadWest linear None
              (Some zero) nearValues (proj1 linear_override_zero))).
Defined.

Lemma linear_values_not_negative_witness :
  calculateLandValues planar nearCells (Some roadWest) linear None (Some zero)
  = Ok nearValues /\
  Forall (fun r =>
            (isNaN (sub one (div (distance r) (maxDistOf (Some zero) nearValues))) = true /\
             isNaN (value r) = true) \/
            (isNaN (sub one (div (distance r) (maxDistOf (Some zero) nearValues))) = false /\
             leb zero (value r) = true /\
             leb (sub one (div (distance r) (maxDistOf (Some zero) nearValues)))
                 (value r) = true /\
             (value r = zero \/
              value r = sub one (div (distance r) (maxDistOf (Some zero) nearValues)))))
         nearValues.
Proof.
  exact (conj (proj1 linear_override_zero)
           (linear_values_not_negative planar nearCells roadWest None (Some zero)
              nearValues (proj1 linear_override_zero))).
Defined.

(** Selecting the three islands. *)
Example select_three_parts : selectResult planar (Some threeParts) = Ok threePartsState.
Proof. vm_compute. reflexivity. Qed.

Lemma selected_boundary_has_path_witness :
  selectResult planar (Some threeParts) = Ok threePartsState /\
  exists ring rings,
    geometry (boundaryGeoJson threePartsState) = Some (Polygon (ring :: rings)) /\
    polygonPath threePartsState = Some (map toPathPoint ring) /\
    turfArea planar (boundaryGeoJson threePartsState) = Ok (areaSqM threePartsState) /\
    normalizePolygon planar (Some threeParts)
    = Ok (Some (boundaryGeoJson threePartsState)).
Proof.
  exact (conj select_three_parts
           (selected_boundary_has_path planar (Some threeParts) threePartsState
              select_three_parts)).
Defined.

Lemma selected_area_is_largest_witness :
  geometry threeParts = Some (MultiPolygon threePartsCoords) /\
  Forall (areaOk planar) threePartsCoords /\
  selectResult planar (Some threeParts) = Ok threePartsState /\
  exists best,
    In best threePartsCoords /\
    boundaryGeoJson threePartsState = mkFeature (Some (Polygon best)) [] /\
    partArea planar best = Ok (areaSqM threePartsState) /\
    forall p a, In p threePartsCoords -> partArea planar p = Ok a ->
      leb a (areaSqM threePartsState) = true.
Proof.
  assert (H1 : geometry threeParts = Some (MultiPolygon threePartsCoords))
    by reflexivity.
  assert (H2 : Forall (areaOk planar) threePartsCoords)
    by (repeat constructor; eexists; split; vm_compute; reflexivity).
  exact (conj H1 (conj H2 (conj select_three_parts
           (selected_area_is_largest planar threeParts threePartsCoords
              threePartsState H1 H2 select_three_parts)))).
Defined.

(** The request for the unit square: the box [-1, -1, 2, 2] of the buffer
    reaches Overpass in the order south, west, north, east. *)
Example unit_square_request :
  roadsRequestBody planar planar_buffer unitSquare one mainRoads = Ok unitSquareRequest /\
  snd (roadsPOST offline passOn integerToString (Ok unitSquareRequest))
  = [mkFetch OVERPASS_API_URL "POST"
       (Some (roadsQuery "motorway|primary" "-1,-1,2,2")) []].
Proof. split; vm_compute; reflexivity. Qed.

Lemma page_roads_request_witness :
  roadsRequestBody planar planar_buffer unitSquare one mainRoads = Ok unitSquareRequest /\
  exists buffered bbox,
    planar_buffer unitSquare one meters = Ok (Some buffered) /\
    turfBbox planar buffered = Ok bbox /\
    map fst (filter snd (entries mainRoads)) <> [] /\
    (status (fst (roadsPOST offline passOn integerToString (Ok unitSquareRequest))) = 400
     <-> List.length bbox <> 4%nat) /\
    (forall minX minY maxX maxY,
       bbox = [minX; minY; maxX; maxY] ->
       snd (roadsPOST offline passOn integerToString (Ok unitSquareRequest))
       = [mkFetch OVERPASS_API_URL "POST"
            (Some (roadsQuery (String.concat "|" (map fst (filter snd (entries mainRoads))))
                     (toStr integerToString (jsonNumber minY) ++ "," ++
                      toStr integerToString (jsonNumber minX) ++ "," ++
                      toStr integerToString (jsonNumber maxY) ++ "," ++
                      toStr integerToString (jsonNumber maxX))%string)) []]).
Proof.
  exact (conj (proj1 unit_square_request)
           (page_roads_request planar planar_buffer offline passOn integerToString
              unitSquare one mainRoads unitSquareRequest (proj1 unit_square_request))).
Defined.
